(** * check_teamredminer: a shallow embedding of the Nagios check

    The development follows [check_teamredminer.py]: the protocol client
    ([TeamRedMinerApi]), the probe ([TeamRedMiner.probe]), the evaluation
    contexts ([BelowThresholdContext], [BooleanContext]), the summary
    ([TeamRedMinerSummary.problem]) and [main].

    Python values are modelled as follows.
    - A decoded JSON scalar is a [jvalue]; a JSON object whose fields are
      scalars (a summary record, a device record, an element of [STATUS]) is a
      finite map from field names to scalars.
    - An exception is a value of [exn]; code that may raise returns
      [exn + A].  Code that talks to the miner also threads the list of
      the commands it has requested so far, one entry per connection.
    - The socket and [json.loads] are an oracle from the command to
      either an exception or a decoded response.
    - The classes of the nagiosplugin library that the script builds on
      ([ScalarContext], [Check]) are not part of the sources; they are
      modelled from the specification and marked as such. *)

From Stdlib Require Import ZArith List Bool Lia DecimalString.
From Stdlib.Floats Require Import SpecFloat.
From stdpp Require Import gmap strings list.

Local Open Scope Z_scope.

(** ** Decoded JSON *)

(** The scalars [json.loads] produces: [None], [bool], [int], [float]
    (a binary64 value, with the infinities and NaN that Python's decoder
    accepts) and [str]. *)
Inductive jvalue : Type :=
| JNull
| JBool (b : bool)
| JInt (n : Z)
| JFloat (f : spec_float)
| JStr (s : string).

(** A dict from field names to scalars. *)
Abbreviation record := (gmap string jvalue).

(** A response of the miner, after [json.loads]: the envelope keys
    [STATUS] and [id] when present, and the remaining keys of the dict in
    document order, each holding an array of records. *)
Record response : Type := {
  resp_STATUS : option (list record);
  resp_id : option jvalue;
  resp_rest : list (string * list record)
}.

(** ** Exceptions *)

Inductive exn : Type :=
| ApiError (msg : string)
| KeyError (key : string)
| IndexError (msg : string)
| TypeError (msg : string)
| OSError (msg : string)
| JSONDecodeError (msg : string).

(** [str(err)]: the message; a [KeyError] shows the quoted key. *)
Definition exn_str (e : exn) : string :=
  match e with
  | KeyError key => "'" +:+ key +:+ "'"
  | ApiError msg | IndexError msg | TypeError msg
  | OSError msg | JSONDecodeError msg => msg
  end.

Definition result (A : Type) : Type := exn + A.

Definition result_bind {A B : Type} (m : result A) (k : A -> result B) : result B :=
  match m with
  | inl e => inl e
  | inr a => k a
  end.

Notation "'try' x <- m ; k" := (result_bind m (fun x => k))
  (at level 60, x name, m at next level, right associativity).

(** ** nagiosplugin's data *)

(** [nagiosplugin.state]: the four service states, with the exit codes
    of section 6. *)
Inductive state : Type := Ok | Warn | Critical | Unknown.

Definition state_code (s : state) : Z :=
  match s with
  | Ok => 0
  | Warn => 1
  | Critical => 2
  | Unknown => 3
  end.

#[global] Instance state_eq_dec : EqDecision state.
Proof. solve_decision. Defined.

(** [str(state)].  [TeamRedMinerSummary.problem] compares it with the
    literal for [Ok]; the other three are the states' names in lower
    case. *)
Definition state_str (s : state) : string :=
  match s with
  | Ok => "ok"
  | Warn => "warning"
  | Critical => "critical"
  | Unknown => "unknown"
  end.

Module Metric.
Record t : Type := {
  name : string;
  value : jvalue;
  uom : option string;
  min : option Z;
  max : option Z;
  context : string
}.
End Metric.

(** [Metric(name, value, uom=uom, context=context)]. *)
Definition mkMetric (name : string) (value : jvalue) (uom : option string)
    (context : string) : Metric.t :=
  {| Metric.name := name; Metric.value := value; Metric.uom := uom;
     Metric.min := None; Metric.max := None; Metric.context := context |}.

Module Result.
Record t : Type := {
  state : state;
  hint : option string;
  metric : Metric.t
}.
End Result.

Module Performance.
Record t : Type := {
  label : string;
  value : jvalue;
  uom : option string;
  warn : option Z;
  crit : option Z;
  min : option Z;
  max : option Z
}.
End Performance.

(** ** Python primitives on scalars *)

(** [str(z)] for an [int]. *)
Definition int_str (z : Z) : string := NilZero.string_of_int (Z.to_int z).

(** [type(v).__name__]. *)
Definition type_name (v : jvalue) : string :=
  match v with
  | JNull => "NoneType"
  | JBool _ => "bool"
  | JInt _ => "int"
  | JFloat _ => "float"
  | JStr _ => "str"
  end.

(** A float against an int, exactly as Python compares them; [None] for
    NaN, which is unordered. *)
Definition float_compare_int (f : spec_float) (z : Z) : option comparison :=
  match f with
  | S754_nan => None
  | S754_zero _ => Some (0 ?= z)
  | S754_infinity s => Some (if s then Lt else Gt)
  | S754_finite s m e =>
      let n := if s then Z.neg m else Z.pos m in
      Some (if 0 <=? e then n * 2 ^ e ?= z else n ?= z * 2 ^ (- e))
  end.

(** A scalar against an int: [None] when Python refuses to order the two
    types, otherwise the outcome ([Some None] when a NaN is involved). *)
Definition compare_int (v : jvalue) (z : Z) : option (option comparison) :=
  match v with
  | JInt n => Some (Some (n ?= z))
  | JBool b => Some (Some (Z.b2z b ?= z))
  | JFloat f => Some (float_compare_int f z)
  | JNull | JStr _ => None
  end.

(** The scalars Python orders against an int: [bool], [int] and [float]. *)
Definition is_number (v : jvalue) : bool :=
  match v with
  | JBool _ | JInt _ | JFloat _ => true
  | JNull | JStr _ => false
  end.

Definition unorderable (op : string) (v : jvalue) : exn :=
  TypeError ("'" +:+ op +:+ "' not supported between instances of '"
             +:+ type_name v +:+ "' and 'int'").

(** [v <= z] *)
Definition py_le (v : jvalue) (z : Z) : result bool :=
  match compare_int v z with
  | None => inl (unorderable "<=" v)
  | Some (Some Lt) | Some (Some Eq) => inr true
  | Some _ => inr false
  end.

(** [v >= z] *)
Definition py_ge (v : jvalue) (z : Z) : result bool :=
  match compare_int v z with
  | None => inl (unorderable ">=" v)
  | Some (Some Gt) | Some (Some Eq) => inr true
  | Some _ => inr false
  end.

(** [v > z] *)
Definition py_gt (v : jvalue) (z : Z) : result bool :=
  match compare_int v z with
  | None => inl (unorderable ">" v)
  | Some (Some Gt) => inr true
  | Some _ => inr false
  end.

(** [v == s] for a string literal [s]. *)
Definition py_eq_str (v : jvalue) (s : string) : bool :=
  match v with
  | JStr s' => bool_decide (s' = s)
  | _ => false
  end.

(** [v is b] for one of the two [bool] singletons. *)
Definition py_is_bool (v : jvalue) (b : bool) : bool :=
  match v with
  | JBool b' => eqb b' b
  | _ => false
  end.

(** [str(b)] for a [bool]. *)
Definition bool_str (b : bool) : string := if b then "True" else "False".

(** [d[key]] *)
Definition getitem (d : record) (key : string) : result jvalue :=
  match d !! key with
  | Some v => inr v
  | None => inl (KeyError key)
  end.

(** [sep.join(l)] *)
Fixpoint join (sep : string) (l : list string) : string :=
  match l with
  | [] => ""
  | [s] => s
  | s :: rest => s +:+ sep +:+ join sep rest
  end.

(** ** The command line *)

(** The namespace [parse_arguments] returns.  The four temperature options
    have integer defaults, so they are always integers; the hashrate and
    uptime options are [None] unless given. *)
Module Args.
Record t : Type := {
  show_version : bool;
  host : string;
  port : Z;
  timeout : Z;
  hashrate_warning : option Z;
  hashrate_critical : option Z;
  uptime_warning : option Z;
  uptime_critical : option Z;
  temperature_warning : Z;
  temperature_critical : Z;
  memory_temperature_warning : Z;
  memory_temperature_critical : Z
}.
End Args.

(** [parse_arguments()] on an empty command line. *)
Definition parse_arguments_defaults : Args.t :=
  {| Args.show_version := false;
     Args.host := "127.0.0.1"; Args.port := 4028; Args.timeout := 1;
     Args.hashrate_warning := None; Args.hashrate_critical := None;
     Args.uptime_warning := None; Args.uptime_critical := None;
     Args.temperature_warning := 70; Args.temperature_critical := 90;
     Args.memory_temperature_warning := 90;
     Args.memory_temperature_critical := 110 |}.

(** ** The miner's API *)

Module TeamRedMinerApi.
Record t : Type := { host : string; port : Z; timeout : Z }.
End TeamRedMinerApi.

Module TeamRedMiner.
Record t : Type := { host : string; port : Z; timeout : Z }.
End TeamRedMiner.

(** What one connection yields: an exception of the socket or of the
    decoder, or the decoded response. *)
Inductive reply : Type :=
| Fails (e : exn)
| Replies (r : response).

(** Code that sends commands: the commands requested so far go in, the
    outcome and the commands requested by then come out. *)
Definition io (A : Type) : Type := list string -> result A * list string.

Definition io_ret {A : Type} (a : A) : io A := fun log => (inr a, log).

Definition io_bind {A B : Type} (m : io A) (k : A -> io B) : io B :=
  fun log =>
    match m log with
    | (inl e, log') => (inl e, log')
    | (inr a, log') => k a log'
    end.

Definition io_lift {A : Type} (r : result A) : io A := fun log => (r, log).

Definition io_sent (command : string) : io unit :=
  fun log => (inr tt, log ++ [command]).

Notation "'do' x <- m ; k" := (io_bind m (fun x => k))
  (at level 60, x name, m at next level, right associativity).

(** ** Contexts *)

Inductive Context : Type :=
| BelowThresholdContext (name : string) (warning critical : option Z)
| ScalarContext (name : string) (warning critical : option Z)
| BooleanContext (name : string) (expected warning critical : bool).

Definition Context_name (c : Context) : string :=
  match c with
  | BelowThresholdContext name _ _ => name
  | ScalarContext name _ _ => name
  | BooleanContext name _ _ _ => name
  end.

(** [bound and value <= bound], as the condition of an [if]: a bound that
    is [None] or [0] is false, and then the comparison is not made. *)
Definition below_bound (bound : option Z) (v : jvalue) : result bool :=
  match bound with
  | None => inr false
  | Some z => if z =? 0 then inr false else py_le v z
  end.

(** [unit = None; if metric.uom: unit = metric.uom] *)
Definition unit_of (metric : Metric.t) : option string :=
  match Metric.uom metric with
  | Some u => if bool_decide (u = "") then None else Some u
  | None => None
  end.

(** [BooleanContext.evaluate] *)
Definition BooleanContext_evaluate (expected warning critical : bool)
    (metric : Metric.t) : Result.t :=
  if negb (py_is_bool (Metric.value metric) expected) then
    let result_type := Ok in
    let result_type :=
      if critical then Critical else if warning then Warn else result_type in
    {| Result.state := result_type;
       Result.hint := Some (Metric.name metric +:+ " is not " +:+ bool_str expected);
       Result.metric := metric |}
  else
    {| Result.state := Ok; Result.hint := None; Result.metric := metric |}.

(** [BelowThresholdContext.performance] *)
Definition BelowThresholdContext_performance (warning critical : option Z)
    (metric : Metric.t) : Performance.t :=
  {| Performance.label := Metric.name metric;
     Performance.value := Metric.value metric;
     Performance.uom := Metric.uom metric;
     Performance.warn := warning;
     Performance.crit := critical;
     Performance.min := Metric.min metric;
     Performance.max := Metric.max metric |}.

(** Modelled from the spec: [ScalarContext] is a class of the nagiosplugin
    library, which is not part of the sources; this is [value >= bound] of
    section 4.4, with an absent bound disabling its tier. *)
Definition above_bound (bound : option Z) (v : jvalue) : result bool :=
  match bound with
  | None => inr false
  | Some z => py_ge v z
  end.

(** Modelled from the spec: the Severity order of section 3,
    [Ok < Warning < Critical < Unknown]. *)
Definition state_leb (a b : state) : bool := state_code a <=? state_code b.

Definition state_max (a b : state) : state := if state_leb a b then b else a.

(** Modelled from the spec: the overall severity of section 4.6 (computed
    inside nagiosplugin's [Check]): the maximum over the results, with
    [Ok] as the floor. *)
Definition overall_state (results : list Result.t) : state :=
  fold_left (fun acc r => state_max acc (Result.state r)) results Ok.

(** What a run of the check amounts to (section 3). *)
Record CheckOutcome : Type := {
  overallSeverity : state;
  problemText : string;
  results : list Result.t;
  perfData : list Performance.t
}.

(** What [main] leaves behind: the version line, or the outcome of the
    check. *)
Inductive output : Type :=
| Version (text : string)
| Outcome (o : CheckOutcome).

(** ** Sample data *)

(** The element [{"STATUS": "E", "Code": 1, "Msg": "bad command"}]. *)
Definition bad_command : record :=
  {[ "STATUS" := JStr "E"; "Code" := JInt 1; "Msg" := JStr "bad command" ]}.

(** The element [{"STATUS": "S", "Code": 11, "Msg": "Summary"}]. *)
Definition success : record :=
  {[ "STATUS" := JStr "S"; "Code" := JInt 11; "Msg" := JStr "Summary" ]}.

(** The response [{"STATUS": statuses, key: payload, "id": 1}]. *)
Definition respond (statuses : list record) (key : string)
    (payload : list record) : reply :=
  Replies {| resp_STATUS := Some statuses;
             resp_id := Some (JInt 1);
             resp_rest := [(key, payload)] |}.

(** A miner that gives one answer to "summary" and another to any other
    command. *)
Definition miner (summary devs : reply) : TeamRedMinerApi.t -> string -> reply :=
  fun _ command => if bool_decide (command = "summary") then summary else devs.

(** The record [{"MHS 30s": 50, "Elapsed": 1000}]. *)
Definition sample_summary : record :=
  {[ "MHS 30s" := JInt 50; "Elapsed" := JInt 1000 ]}.

(** The record [{"GPU": 0, "TemperatureMem": 80}]. *)
Definition hot_memory : record :=
  {[ "GPU" := JInt 0; "TemperatureMem" := JInt 80 ]}.

(** Miners that answer "summary" with [sample_summary]: one reports a GPU
    with a memory temperature of 80, the other rejects the command. *)
Definition hot_memory_miner : TeamRedMinerApi.t -> string -> reply :=
  miner (respond [success] "SUMMARY" [sample_summary])
        (respond [success] "DEVS" [hot_memory]).

Definition refusing_miner : TeamRedMinerApi.t -> string -> reply :=
  miner (respond [success; bad_command] "SUMMARY" [sample_summary])
        (respond [success] "DEVS" [hot_memory]).

(** The element [{"STATUS": "S", "Code": 11}], which has no message. *)
Definition no_message : record :=
  {[ "STATUS" := JStr "S"; "Code" := JInt 11 ]}.

(** The record [{"Elapsed": "12"}], whose uptime is a string. *)
Definition text_uptime : record := {[ "Elapsed" := JStr "12" ]}.

(** A miner that answers "summary" with [text_uptime]. *)
Definition text_uptime_miner : TeamRedMinerApi.t -> string -> reply :=
  miner (respond [success] "SUMMARY" [text_uptime])
        (respond [success] "DEVS" [hot_memory]).

(** The resource [main] builds from the default options. *)
Definition local_miner : TeamRedMiner.t :=
  {| TeamRedMiner.host := "127.0.0.1"; TeamRedMiner.port := 4028;
     TeamRedMiner.timeout := 1 |}.

(** [Metric("hashrate", 50, uom="MH/s", context="hashrate")]. *)
Definition hashing : Metric.t :=
  mkMetric "hashrate" (JInt 50) (Some "MH/s") "hashrate".

(** A printer of floats and a hint of [ScalarContext] for data that holds
    no float and for statements that read no such hint. *)
Definition no_floats : spec_float -> string := fun _ => "".

Definition no_hint : Metric.t -> option Z -> option string := fun _ _ => None.

(** A stalled rig: [Metric("hashrate", 0, uom="MH/s", context="hashrate")]. *)
Definition stalled : Metric.t := mkMetric "hashrate" (JInt 0) (Some "MH/s") "hashrate".

(** The namespace with other memory-temperature bounds. *)
Definition with_memory_temperature (args : Args.t) (warning critical : Z)
    : Args.t :=
  {| Args.show_version := Args.show_version args;
     Args.host := Args.host args; Args.port := Args.port args;
     Args.timeout := Args.timeout args;
     Args.hashrate_warning := Args.hashrate_warning args;
     Args.hashrate_critical := Args.hashrate_critical args;
     Args.uptime_warning := Args.uptime_warning args;
     Args.uptime_critical := Args.uptime_critical args;
     Args.temperature_warning := Args.temperature_warning args;
     Args.temperature_critical := Args.temperature_critical args;
     Args.memory_temperature_warning := warning;
     Args.memory_temperature_critical := critical |}.

(** The names and states of the results [main] reports. *)
Definition verdicts (out : output) : list (string * state) :=
  match out with
  | Version _ => []
  | Outcome o =>
      map (fun r => (Metric.name (Result.metric r), Result.state r)) (results o)
  end.

Section Model.

(** [repr] of a float (Python prints the shortest decimal that reads back
    as the same binary64 value); the model leaves it open. *)
Variable float_repr : spec_float -> string.

(** The hint nagiosplugin's [ScalarContext] attaches to a result that
    violates a bound; neither the sources nor the spec give its text. *)
Variable scalar_hint : Metric.t -> option Z -> option string.

(** The network: what the miner at the client's address answers to a
    command. *)
Variable net : TeamRedMinerApi.t -> string -> reply.

(** [str(v)], as an f-string field prints a scalar. *)
Definition py_str (v : jvalue) : string :=
  match v with
  | JNull => "None"
  | JBool b => bool_str b
  | JInt n => int_str n
  | JFloat f => float_repr f
  | JStr s => s
  end.

(** An f-string field holding an optional integer bound. *)
Definition bound_str (bound : option Z) : string :=
  match bound with
  | Some z => int_str z
  | None => "None"
  end.

(** An f-string field holding an optional string. *)
Definition opt_str (s : option string) : string :=
  match s with
  | Some s => s
  | None => "None"
  end.

(** *** TeamRedMinerApi *)

(** The f-string of [raise_for_status]. *)
Definition api_error_text (message code : jvalue) : string :=
  "API error: " +:+ py_str message +:+ " (code " +:+ py_str code +:+ ")".

(** The body of the loop of [raise_for_status], for the elements left. *)
Fixpoint raise_for_status_loop (statuses : list record) : result unit :=
  match statuses with
  | [] => inr tt
  | r :: rest =>
      try status <- getitem r "STATUS";
      try code <- getitem r "Code";
      try message <- getitem r "Msg";
      if py_eq_str status "W" || py_eq_str status "E" || py_eq_str status "F"
      then inl (ApiError (api_error_text message code))
      else raise_for_status_loop rest
  end.

(** [TeamRedMinerApi.raise_for_status] *)
Definition raise_for_status (response : response) : result unit :=
  match resp_STATUS response with
  | None => inl (KeyError "STATUS")
  | Some statuses => raise_for_status_loop statuses
  end.

(** [TeamRedMinerApi.request].  After the status check, [STATUS] is there
    to be popped; [id] may be missing, and so may any further key. *)
Definition request (self : TeamRedMinerApi.t) (command : string)
    : io (list record) :=
  do _ <- io_sent command;
  do response <- io_lift
       match net self command with
       | Fails e => inl e
       | Replies r => inr r
       end;
  do _ <- io_lift (raise_for_status response);
  do _ <- io_lift
       match resp_id response with
       | Some v => inr v
       | None => inl (KeyError "id")
       end;
  io_lift
    match resp_rest response with
    | (_, payload) :: _ => inr payload
    | [] => inl (IndexError "list index out of range")
    end.

(** *** TeamRedMiner *)

(** [payload[0]] *)
Definition first_record (payload : list record) : result record :=
  match payload with
  | r :: _ => inr r
  | [] => inl (IndexError "list index out of range")
  end.

(** One turn of the loop over the devices of [probe]. *)
Definition probe_device (metrics : list Metric.t) (device : record)
    : list Metric.t :=
  match device !! "GPU" with
  | None => metrics
  | Some id =>
      let metrics :=
        match device !! "Status" with
        | Some status =>
            let alive := py_eq_str status "Alive" in
            metrics ++ [mkMetric ("alive_" +:+ py_str id) (JBool alive) None "alive"]
        | None => metrics
        end in
      let metrics :=
        match device !! "Temperature" with
        | Some temperature =>
            metrics ++ [mkMetric ("temperature_" +:+ py_str id) temperature
                          (Some "C") "temperature"]
        | None => metrics
        end in
      match device !! "TemperatureMem" with
      | Some temperature =>
          metrics ++ [mkMetric ("memory_temperature_" +:+ py_str id) temperature
                        (Some "C") "temperature"]
      | None => metrics
      end
  end.

(** [TeamRedMiner.probe].  The comparison [uptime > 1] only chooses a word
    of a log line, but it raises on a value that is not a number. *)
Definition probe (self : TeamRedMiner.t) : io (list Metric.t) :=
  let client :=
    {| TeamRedMinerApi.host := TeamRedMiner.host self;
       TeamRedMinerApi.port := TeamRedMiner.port self;
       TeamRedMinerApi.timeout := TeamRedMiner.timeout self |} in
  let metrics := [] in
  do payload <- request client "summary";
  do summary <- io_lift (first_record payload);
  let metrics :=
    match summary !! "MHS 30s" with
    | Some hashrate =>
        metrics ++ [mkMetric "hashrate" hashrate (Some "MH/s") "hashrate"]
    | None => metrics
    end in
  do metrics <-
    match summary !! "Elapsed" with
    | Some uptime =>
        do _ <- io_lift (py_gt uptime 1);
        io_ret (metrics ++ [mkMetric "uptime" uptime (Some "s") "uptime"])
    | None => io_ret metrics
    end;
  do devices <- request client "devs";
  io_ret (fold_left probe_device devices metrics).

(** *** Evaluation *)

(** [BelowThresholdContext.evaluate] *)
Definition BelowThresholdContext_evaluate (warning critical : option Z)
    (metric : Metric.t) : result Result.t :=
  let unit := unit_of metric in
  try is_critical <- below_bound critical (Metric.value metric);
  if is_critical then
    inr {| Result.state := Critical;
           Result.hint := Some (py_str (Metric.value metric) +:+ "<="
                                +:+ bound_str critical +:+ opt_str unit);
           Result.metric := metric |}
  else
    try is_warning <- below_bound warning (Metric.value metric);
    if is_warning then
      inr {| Result.state := Warn;
             Result.hint := Some (py_str (Metric.value metric) +:+ "<="
                                  +:+ bound_str warning +:+ opt_str unit);
             Result.metric := metric |}
    else
      inr {| Result.state := Ok; Result.hint := None; Result.metric := metric |}.

(** Modelled from the spec: [ScalarContext.evaluate] belongs to
    nagiosplugin, which is not part of the sources; this is the rule of
    section 4.4: Critical if [value >= criticalBound], else Warning if
    [value >= warningBound], else Ok. *)
Definition ScalarContext_evaluate (warning critical : option Z)
    (metric : Metric.t) : result Result.t :=
  try is_critical <- above_bound critical (Metric.value metric);
  if is_critical then
    inr {| Result.state := Critical;
           Result.hint := scalar_hint metric critical;
           Result.metric := metric |}
  else
    try is_warning <- above_bound warning (Metric.value metric);
    if is_warning then
      inr {| Result.state := Warn;
             Result.hint := scalar_hint metric warning;
             Result.metric := metric |}
    else
      inr {| Result.state := Ok; Result.hint := None; Result.metric := metric |}.

(** The context's [evaluate] method. *)
Definition evaluate (c : Context) (metric : Metric.t) : result Result.t :=
  match c with
  | BelowThresholdContext _ warning critical =>
      BelowThresholdContext_evaluate warning critical metric
  | ScalarContext _ warning critical =>
      ScalarContext_evaluate warning critical metric
  | BooleanContext _ expected warning critical =>
      inr (BooleanContext_evaluate expected warning critical metric)
  end.

(** The context's [performance] method: [BelowThresholdContext] overrides
    it; a [ScalarContext] reports the same fields (section 4.6); a
    [BooleanContext] inherits the default, which reports nothing. *)
Definition performance (c : Context) (metric : Metric.t) : option Performance.t :=
  match c with
  | BelowThresholdContext _ warning critical
  | ScalarContext _ warning critical =>
      Some (BelowThresholdContext_performance warning critical metric)
  | BooleanContext _ _ _ _ => None
  end.

(** *** TeamRedMinerSummary *)

(** The f-string of [problem]. *)
Definition render (r : Result.t) : string :=
  Metric.name (Result.metric r) +:+ " " +:+ state_str (Result.state r)
  +:+ ": " +:+ opt_str (Result.hint r).

(** [TeamRedMinerSummary.problem] *)
Definition problem (results : list Result.t) : string :=
  join ", "
    (map render
       (filter (fun r => state_str (Result.state r) ≠ "ok") results)).

(** *** The check *)

Record Check : Type := {
  resource : TeamRedMiner.t;
  contexts : list Context
}.

(** The context registered under a name. *)
Definition find_context (contexts : list Context) (name : string)
    : option Context :=
  find (fun c => bool_decide (Context_name c = name)) contexts.

(** Modelled from the spec: the evaluation loop of nagiosplugin's [Check]
    (section 4.6).  Each metric goes to the context registered under its
    context name; a metric with no such context is dropped; an exception
    of [evaluate] is not caught here. *)
Fixpoint evaluate_metrics (contexts : list Context) (metrics : list Metric.t)
    : result (list Result.t * list Performance.t) :=
  match metrics with
  | [] => inr ([], [])
  | metric :: rest =>
      match find_context contexts (Metric.context metric) with
      | None => evaluate_metrics contexts rest
      | Some c =>
          try r <- evaluate c metric;
          try others <- evaluate_metrics contexts rest;
          inr (r :: fst others,
               match performance c metric with
               | Some p => p :: snd others
               | None => snd others
               end)
      end
  end.

(** Modelled from the spec: [Check.main] of nagiosplugin (section 4.6):
    probe, evaluate, aggregate, and ask the summary for the problem
    text. *)
Definition Check_main (check : Check) : io CheckOutcome :=
  do metrics <- probe (resource check);
  do evaluated <- io_lift (evaluate_metrics (contexts check) metrics);
  io_ret {| overallSeverity := overall_state (fst evaluated);
            problemText := problem (fst evaluated);
            results := fst evaluated;
            perfData := snd evaluated |}.

(** The [Check] that [main] builds. *)
Definition main_check (args : Args.t) : Check :=
  {| resource :=
       {| TeamRedMiner.host := Args.host args;
          TeamRedMiner.port := Args.port args;
          TeamRedMiner.timeout := Args.timeout args |};
     contexts :=
       [ BelowThresholdContext "hashrate"
           (Args.hashrate_warning args) (Args.hashrate_critical args);
         BelowThresholdContext "uptime"
           (Args.uptime_warning args) (Args.uptime_critical args);
         ScalarContext "temperature"
           (Some (Args.temperature_warning args))
           (Some (Args.temperature_critical args));
         BooleanContext "alive" true false true ] |}.

(** [main], from the parsed arguments on: what it reports and the commands
    it sent.  The [except] clause turns an exception into the Unknown
    outcome. *)
Definition main (args : Args.t) : output * list string :=
  if Args.show_version args then (Version "1.0.0", [])
  else
    match Check_main (main_check args) [] with
    | (inr outcome, log) => (Outcome outcome, log)
    | (inl err, log) =>
        (Outcome {| overallSeverity := Unknown;
                    problemText := "Failed to execute check: " +:+ exn_str err;
                    results := [];
                    perfData := [] |}, log)
    end.


(** ** Vocabulary of the statements *)

(** The state of a result, when there is one. *)
Definition verdict (r : result Result.t) : option state :=
  match r with
  | inr r => Some (Result.state r)
  | inl _ => None
  end.

(** A tier of a [BelowThresholdContext] stays silent on a value: its bound
    is absent, or is [0], or the value lies above it. *)
Definition silent (bound : option Z) (v : jvalue) : Prop :=
  bound = None ∨ bound = Some 0 ∨ ∃ z, bound = Some z ∧ py_le v z = inr false.

(** An element of [STATUS] whose status code is W, E or F. *)
Definition status_fails (s : record) : bool :=
  match s !! "STATUS" with
  | Some status =>
      py_eq_str status "W" || py_eq_str status "E" || py_eq_str status "F"
  | None => false
  end.

(** An element of [STATUS] as the wire protocol has it: with a status
    code, a numeric code and a message. *)
Definition well_formed_status (s : record) : Prop :=
  is_Some (s !! "STATUS") ∧ is_Some (s !! "Code") ∧ is_Some (s !! "Msg").

(** [sub in s] for two strings. *)
Fixpoint is_substring (sub s : string) : bool :=
  String.prefix sub s
  || match s with
     | EmptyString => false
     | String _ rest => is_substring sub rest
     end.

(** The outcome [main] reports for an exception. *)
Definition failed (err : exn) : output :=
  Outcome {| overallSeverity := Unknown;
             problemText := "Failed to execute check: " +:+ exn_str err;
             results := [];
             perfData := [] |}.

(** A metric of the given name is among the metrics. *)
Definition emitted (name : string) (metrics : list Metric.t) : Prop :=
  ∃ m, m ∈ metrics ∧ Metric.name m = name.

(** The metric a field gives rise to, if the field is present. *)
Definition when_present (field : option jvalue) (mk : jvalue -> Metric.t)
    : list Metric.t :=
  match field with
  | Some v => [mk v]
  | None => []
  end.

(** What the spec (section 4.2) lets the first summary record emit. *)
Definition summary_metrics (summary : record) : list Metric.t :=
  when_present (summary !! "MHS 30s")
    (fun v => mkMetric "hashrate" v (Some "MH/s") "hashrate")
  ++ when_present (summary !! "Elapsed")
       (fun v => mkMetric "uptime" v (Some "s") "uptime").

(** What the spec (section 4.2) lets one device record emit. *)
Definition device_metrics (device : record) : list Metric.t :=
  match device !! "GPU" with
  | None => []
  | Some id =>
      when_present (device !! "Status")
        (fun v => mkMetric ("alive_" +:+ py_str id)
                    (JBool (py_eq_str v "Alive")) None "alive")
      ++ when_present (device !! "Temperature")
           (fun v => mkMetric ("temperature_" +:+ py_str id) v
                       (Some "C") "temperature")
      ++ when_present (device !! "TemperatureMem")
           (fun v => mkMetric ("memory_temperature_" +:+ py_str id) v
                       (Some "C") "temperature")
  end.

(** A device record that has a GPU id printing as [idtext], and the given
    field. *)
Definition device_has (idtext field : string) (device : record) : Prop :=
  ∃ id, device !! "GPU" = Some id ∧ py_str id = idtext
        ∧ is_Some (device !! field).

(** The client that [probe] builds. *)
Definition client_of (self : TeamRedMiner.t) : TeamRedMinerApi.t :=
  {| TeamRedMinerApi.host := TeamRedMiner.host self;
     TeamRedMinerApi.port := TeamRedMiner.port self;
     TeamRedMinerApi.timeout := TeamRedMiner.timeout self |}.

(** The first of the keys [STATUS], [Code], [Msg] that an element of
    [STATUS] lacks, in the order [raise_for_status] reads them. *)
Definition first_missing (s : record) : option string :=
  match s !! "STATUS", s !! "Code", s !! "Msg" with
  | None, _, _ => Some "STATUS"
  | Some _, None, _ => Some "Code"
  | Some _, Some _, None => Some "Msg"
  | Some _, Some _, Some _ => None
  end.

(** A bound that counts as true in [bound and ...]: an integer other
    than 0. *)
Definition effective (bound : option Z) : bool :=
  match bound with
  | Some z => negb (z =? 0)
  | None => false
  end.

(** An integer value reaches a bound of a [BelowThresholdContext]: the
    bound is an integer other than 0 and the value is at most the bound. *)
Definition reached (bound : option Z) (n : Z) : bool :=
  match bound with
  | Some z => negb (z =? 0) && (n <=? z)
  | None => false
  end.

(** The GPU ids of the device records that have one, as they print. *)
Definition gpu_ids (devices : list record) : list string :=
  omap (fun device => py_str <$> device !! "GPU") devices.

(** * Properties *)

(** ** The threshold-below context *)

Lemma below_bound_reached (z : Z) (v : jvalue) :
  z ≠ 0 → below_bound (Some z) v = py_le v z.
Proof.
  intros Hz. unfold below_bound.
  destruct (Z.eqb_spec z 0) as [->|_]; [contradiction | reflexivity].
Qed.

Lemma below_bound_silent (bound : option Z) (v : jvalue) :
  silent bound v → below_bound bound v = inr false.
Proof.
  intros [-> | [-> | (z & -> & Hle)]]; try reflexivity.
  unfold below_bound. destruct (z =? 0); [reflexivity | exact Hle].
Qed.

Lemma unit_of_named (metric : Metric.t) (unit : string) :
  Metric.uom metric = Some unit → unit ≠ "" → opt_str (unit_of metric) = unit.
Proof.
  intros Huom Hne. unfold unit_of. rewrite Huom.
  rewrite bool_decide_eq_false_2 by exact Hne. reflexivity.
Qed.

(** C1 (amended): for a metric with a unit, such as hashrate and uptime,
    evaluated by the threshold-below context.  If the critical bound is
    configured, is not 0, and [value <= criticalBound], the result is
    Critical with the hint [<value><=<criticalBound><unit>].  Otherwise, if
    the warning bound is configured, is not 0, and [value <= warningBound],
    the result is Warning with the analogous hint.  Otherwise the result
    is Ok without a hint.  A tier whose bound is absent or 0 is disabled. *)
Theorem BelowThresholdContext_evaluate_tiers
    (warning critical : option Z) (metric : Metric.t) (unit : string) :
  Metric.uom metric = Some unit → unit ≠ "" →
  let v := Metric.value metric in
  (∀ c, critical = Some c → c ≠ 0 → py_le v c = inr true →
     BelowThresholdContext_evaluate warning critical metric
     = inr {| Result.state := Critical;
              Result.hint := Some (py_str v +:+ "<=" +:+ int_str c +:+ unit);
              Result.metric := metric |})
  ∧ (∀ w, silent critical v → warning = Some w → w ≠ 0 → py_le v w = inr true →
     BelowThresholdContext_evaluate warning critical metric
     = inr {| Result.state := Warn;
              Result.hint := Some (py_str v +:+ "<=" +:+ int_str w +:+ unit);
              Result.metric := metric |})
  ∧ (silent critical v → silent warning v →
     BelowThresholdContext_evaluate warning critical metric
     = inr {| Result.state := Ok; Result.hint := None; Result.metric := metric |}).
Proof.
  intros Huom Hunit v.
  pose proof (unit_of_named metric unit Huom Hunit) as Hu.
  unfold BelowThresholdContext_evaluate. fold v.
  repeat split.
  - intros c -> Hc Hle.
    rewrite (below_bound_reached c v Hc), Hle. cbn. by rewrite Hu.
  - intros w Hcrit -> Hw Hle.
    rewrite (below_bound_silent critical v Hcrit),
      (below_bound_reached w v Hw), Hle. cbn. by rewrite Hu.
  - intros Hcrit Hwarn.
    by rewrite (below_bound_silent critical v Hcrit),
      (below_bound_silent warning v Hwarn).
Qed.

(** C10: in the threshold-below context a bound of 0 behaves exactly like
    an absent bound: the evaluation is the same on every metric, so a
    critical bound of 0 never gives Critical and a warning bound of 0 never
    gives Warning, whatever the value. *)
Theorem BelowThresholdContext_zero_bound_disabled
    (warning critical : option Z) (metric : Metric.t) :
  BelowThresholdContext_evaluate warning (Some 0) metric
  = BelowThresholdContext_evaluate warning None metric
  ∧ BelowThresholdContext_evaluate (Some 0) critical metric
    = BelowThresholdContext_evaluate None critical metric
  ∧ verdict (BelowThresholdContext_evaluate warning (Some 0) metric) ≠ Some Critical
  ∧ verdict (BelowThresholdContext_evaluate (Some 0) critical metric) ≠ Some Warn.
Proof.
  unfold BelowThresholdContext_evaluate. cbn.
  split; [reflexivity | split; [reflexivity | split]].
  - destruct (below_bound warning (Metric.value metric)) as [e | []];
      cbn; congruence.
  - destruct (below_bound critical (Metric.value metric)) as [e | []];
      cbn; congruence.
Qed.

(** ** The probe *)

Lemma probe_device_appends (metrics : list Metric.t) (device : record) :
  probe_device metrics device = metrics ++ device_metrics device.
Proof.
  unfold probe_device, device_metrics, when_present.
  destruct (device !! "GPU") as [id|]; [| by rewrite app_nil_r].
  destruct (device !! "Status"), (device !! "Temperature"),
    (device !! "TemperatureMem"); cbn;
    rewrite <- ?app_assoc, ?app_nil_r; reflexivity.
Qed.

Lemma probe_devices_append (devices : list record) (metrics : list Metric.t) :
  fold_left probe_device devices metrics
  = metrics ++ flat_map device_metrics devices.
Proof.
  revert metrics.
  induction devices as [| device devices IH]; intros metrics; cbn.
  - by rewrite app_nil_r.
  - by rewrite IH, probe_device_appends, <- app_assoc.
Qed.

Lemma emitted_app (name : string) (l1 l2 : list Metric.t) :
  emitted name (l1 ++ l2) ↔ emitted name l1 ∨ emitted name l2.
Proof.
  unfold emitted. split.
  - intros (m & Hin & Hname). apply elem_of_app in Hin as [Hin | Hin]; eauto.
  - intros [(m & Hin & Hname) | (m & Hin & Hname)];
      exists m; split; try done; apply elem_of_app; auto.
Qed.

Lemma emitted_devices (name : string) (devices : list record) :
  emitted name (flat_map device_metrics devices)
  ↔ ∃ device, device ∈ devices ∧ emitted name (device_metrics device).
Proof.
  unfold emitted. split.
  - intros (m & Hin & Hname).
    apply list_elem_of_In, in_flat_map in Hin as (device & Hd & Hm).
    exists device. split; [by apply list_elem_of_In |].
    exists m. split; [by apply list_elem_of_In | done].
  - intros (device & Hd & m & Hm & Hname).
    exists m. split; [| done].
    apply list_elem_of_In, in_flat_map. exists device.
    split; by apply list_elem_of_In.
Qed.

Lemma emitted_when_present (name : string) (field : option jvalue)
    (mk : jvalue -> Metric.t) :
  emitted name (when_present field mk)
  ↔ ∃ v, field = Some v ∧ Metric.name (mk v) = name.
Proof.
  unfold emitted, when_present. split.
  - intros (m & Hin & Hname). destruct field as [v|].
    + apply list_elem_of_singleton in Hin as ->. eauto.
    + by apply elem_of_nil in Hin.
  - intros (v & -> & Hname). exists (mk v). split; [apply list_elem_of_singleton; reflexivity | done].
Qed.

Lemma emitted_device (name : string) (device : record) :
  emitted name (device_metrics device)
  ↔ ∃ id, device !! "GPU" = Some id
      ∧ ((is_Some (device !! "Status") ∧ name = "alive_" +:+ py_str id)
         ∨ (is_Some (device !! "Temperature")
            ∧ name = "temperature_" +:+ py_str id)
         ∨ (is_Some (device !! "TemperatureMem")
            ∧ name = "memory_temperature_" +:+ py_str id)).
Proof.
  unfold device_metrics.
  destruct (device !! "GPU") as [id|].
  - rewrite !emitted_app, !emitted_when_present. split.
    + intros [(v & Hv & Hn) | [(v & Hv & Hn) | (v & Hv & Hn)]];
        exists id; (split; [reflexivity |]); rewrite Hv; cbn in Hn; eauto 6.
    + intros (id' & [= <-] & [([v Hv] & ->) | [([v Hv] & ->) | ([v Hv] & ->)]]);
        rewrite Hv; eauto 6.
  - split.
    + intros (m & Hin & _). by apply elem_of_nil in Hin.
    + by intros (id & [=] & _).
Qed.

Lemma emitted_summary (name : string) (summary : record) :
  emitted name (summary_metrics summary)
  ↔ (is_Some (summary !! "MHS 30s") ∧ name = "hashrate")
    ∨ (is_Some (summary !! "Elapsed") ∧ name = "uptime").
Proof.
  unfold summary_metrics. rewrite emitted_app, !emitted_when_present. split.
  - intros [(v & Hv & Hn) | (v & Hv & Hn)]; rewrite Hv; cbn in Hn; eauto.
  - intros [([v Hv] & ->) | ([v Hv] & ->)]; rewrite Hv; eauto.
Qed.

Lemma probe_succeeds (self : TeamRedMiner.t) (summary : record)
    (more devices : list record) (log log1 log2 : list string) :
  request (client_of self) "summary" log = (inr (summary :: more), log1) →
  request (client_of self) "devs" log1 = (inr devices, log2) →
  (∀ uptime, summary !! "Elapsed" = Some uptime → is_number uptime = true) →
  probe self log
  = (inr (summary_metrics summary ++ flat_map device_metrics devices), log2).
Proof.
  intros Hsummary Hdevs Huptime.
  unfold probe, io_bind. fold (client_of self).
  remember (request (client_of self) "devs") as request_devs.
  rewrite Hsummary. cbn.
  unfold summary_metrics, when_present.
  destruct (summary !! "Elapsed") as [uptime|] eqn:Helapsed.
  - specialize (Huptime uptime eq_refl).
    unfold py_gt, io_lift.
    destruct (compare_int uptime 1) as [[[]|]|] eqn:Hcmp;
      [| | | | by destruct uptime];
      cbn; rewrite Hdevs; by rewrite probe_devices_append.
  - cbn. rewrite Hdevs. by rewrite probe_devices_append, app_nil_r.
Qed.

(** C6: when both requests are answered, the probe succeeds whichever
    optional fields are missing, and what it emits is decided by the
    data alone.  A hashrate metric is emitted iff the first summary record
    has "MHS 30s", an uptime metric iff it has "Elapsed"; [alive_<id>],
    [temperature_<id>] and [memory_temperature_<id>] are emitted iff some
    device record has "GPU" (printing as [<id>]) together with "Status",
    "Temperature" and "TemperatureMem" respectively.  Each emitted metric
    carries the value of its field.  (A field "Elapsed" that is present
    must hold a number, as the probe compares it with 1.) *)
Theorem probe_data_driven (self : TeamRedMiner.t) (summary : record)
    (more devices : list record) (log log1 log2 : list string) :
  request (client_of self) "summary" log = (inr (summary :: more), log1) →
  request (client_of self) "devs" log1 = (inr devices, log2) →
  (∀ uptime, summary !! "Elapsed" = Some uptime → is_number uptime = true) →
  ∃ metrics,
    probe self log = (inr metrics, log2)
    ∧ metrics = summary_metrics summary ++ flat_map device_metrics devices
    ∧ (emitted "hashrate" metrics ↔ is_Some (summary !! "MHS 30s"))
    ∧ (emitted "uptime" metrics ↔ is_Some (summary !! "Elapsed"))
    ∧ ∀ idtext,
        (emitted ("alive_" +:+ idtext) metrics
         ↔ ∃ device, device ∈ devices ∧ device_has idtext "Status" device)
        ∧ (emitted ("temperature_" +:+ idtext) metrics
           ↔ ∃ device, device ∈ devices
               ∧ device_has idtext "Temperature" device)
        ∧ (emitted ("memory_temperature_" +:+ idtext) metrics
           ↔ ∃ device, device ∈ devices
               ∧ device_has idtext "TemperatureMem" device).
Proof.
  intros Hsummary Hdevs Huptime.
  eexists.
  split; [by apply (probe_succeeds self summary more devices log log1 log2) |].
  split; [reflexivity |].
  split; [| split; [| intros idtext; split; [| split]]];
    rewrite emitted_app, emitted_summary, emitted_devices;
    setoid_rewrite emitted_device; unfold device_has; cbn.
  - split; [| by auto].
    intros [[[? ?] | [? ?]] | (d & _ & id & _ & [[_ ?] | [[_ ?] | [_ ?]]])];
      done.
  - split; [| by auto].
    intros [[[? ?] | [? ?]] | (d & _ & id & _ & [[_ ?] | [[_ ?] | [_ ?]]])];
      done.
  - split.
    + intros [[[_ ?] | [_ ?]] | (d & Hd & id & Hid & Hcase)]; [done | done |].
      exists d. split; [done |]. exists id. split; [done |].
      destruct Hcase as [[? ?] | [[_ ?] | [_ ?]]]; [| done | done].
      split; [by simplify_eq | done].
    + intros (d & Hd & id & Hid & <- & Hfield). right.
      exists d. split; [done |]. exists id. eauto.
  - split.
    + intros [[[_ ?] | [_ ?]] | (d & Hd & id & Hid & Hcase)]; [done | done |].
      exists d. split; [done |]. exists id. split; [done |].
      destruct Hcase as [[_ ?] | [[? ?] | [_ ?]]]; [done | | done].
      split; [by simplify_eq | done].
    + intros (d & Hd & id & Hid & <- & Hfield). right.
      exists d. split; [done |]. exists id. eauto 6.
  - split.
    + intros [[[_ ?] | [_ ?]] | (d & Hd & id & Hid & Hcase)]; [done | done |].
      exists d. split; [done |]. exists id. split; [done |].
      destruct Hcase as [[_ ?] | [[_ ?] | [? ?]]]; [done | done |].
      split; [by simplify_eq | done].
    + intros (d & Hd & id & Hid & <- & Hfield). right.
      exists d. split; [done |]. exists id. eauto 6.
Qed.

(** ** The boolean context *)

(** C7: on a boolean metric the boolean context gives Ok without a hint
    when the value is the expected one; on a mismatch it gives Critical if
    configured critical, else Warning if configured warning, else Ok, with
    the hint [<metricName> is not <expected>].  [main] registers the
    context of the alive metrics with expected [True] and critical on
    mismatch: a GPU that is not alive gives Critical with the hint
    [alive_0 is not True], an alive one gives Ok.  Every alive metric of
    the probe is boolean. *)
Theorem BooleanContext_evaluate_mismatch
    (expected warning critical : bool) (metric : Metric.t) (b : bool) :
  Metric.value metric = JBool b →
  (b = expected →
     BooleanContext_evaluate expected warning critical metric
     = {| Result.state := Ok; Result.hint := None; Result.metric := metric |})
  ∧ (b ≠ expected →
     BooleanContext_evaluate expected warning critical metric
     = {| Result.state :=
            if critical then Critical else if warning then Warn else Ok;
          Result.hint :=
            Some (Metric.name metric +:+ " is not " +:+ bool_str expected);
          Result.metric := metric |})
  ∧ (∀ args, find_context (contexts (main_check args)) "alive"
             = Some (BooleanContext "alive" true false true))
  ∧ (let dead := mkMetric "alive_0" (JBool false) None "alive" in
     evaluate (BooleanContext "alive" true false true) dead
     = inr {| Result.state := Critical;
              Result.hint := Some "alive_0 is not True";
              Result.metric := dead |})
  ∧ (let alive := mkMetric "alive_0" (JBool true) None "alive" in
     evaluate (BooleanContext "alive" true false true) alive
     = inr {| Result.state := Ok; Result.hint := None; Result.metric := alive |})
  ∧ (∀ metrics device m,
       m ∈ probe_device metrics device → m ∉ metrics →
       Metric.context m = "alive" → ∃ alive, Metric.value m = JBool alive).
Proof.
  intros Hvalue. unfold BooleanContext_evaluate. rewrite Hvalue. cbn.
  split; [| split; [| split; [| split; [| split]]]]; try reflexivity.
  - intros ->. by rewrite eqb_reflx.
  - intros Hne. apply eqb_false_iff in Hne. by rewrite Hne.
  - intros metrics device m Hin Hnew Hctx.
    rewrite probe_device_appends in Hin.
    apply elem_of_app in Hin as [Hin | Hin]; [done |].
    unfold device_metrics, when_present in Hin.
    destruct (device !! "GPU") as [id|]; [| by apply elem_of_nil in Hin].
    destruct (device !! "Status"), (device !! "Temperature"),
      (device !! "TemperatureMem"); cbn in Hin;
      repeat (apply elem_of_cons in Hin as [-> | Hin]; [by eauto |]);
      by apply elem_of_nil in Hin.
Qed.

(** ** The summary *)

Lemma state_str_ok (s : state) : state_str s = "ok" ↔ s = Ok.
Proof. destruct s; cbn; split; intros H; done. Qed.

(** ** The protocol client *)

Lemma status_fails_codes (s : record) :
  status_fails s = true
  ↔ ∃ code, s !! "STATUS" = Some (JStr code)
            ∧ (code = "W" ∨ code = "E" ∨ code = "F").
Proof.
  unfold status_fails. split.
  - destruct (s !! "STATUS") as [[| | | | code]|]; cbn; try done.
    rewrite !orb_true_iff, !bool_decide_eq_true. intros H. exists code. tauto.
  - intros (code & -> & H). cbn.
    rewrite !orb_true_iff, !bool_decide_eq_true. tauto.
Qed.

Lemma raise_for_status_loop_cases (statuses : list record) :
  Forall well_formed_status statuses →
  (Forall (fun s => status_fails s = false) statuses
   ∧ raise_for_status_loop statuses = inr tt)
  ∨ (∃ s message code,
       s ∈ statuses ∧ status_fails s = true
       ∧ s !! "Msg" = Some message ∧ s !! "Code" = Some code
       ∧ raise_for_status_loop statuses
         = inl (ApiError (api_error_text message code))).
Proof.
  induction 1 as [| s rest ([status Hs] & [code Hc] & [message Hm]) _ IH].
  - left. by split.
  - cbn. unfold getitem. rewrite Hs, Hc, Hm. cbn.
    destruct (py_eq_str status "W" || py_eq_str status "E"
              || py_eq_str status "F") eqn:Hfails.
    + right. exists s, message, code.
      split; [apply elem_of_cons; by left |].
      unfold status_fails. by rewrite Hs.
    + destruct IH as [[Hall Hloop] | (s' & m' & c' & Hin & Hrest)].
      * left. split; [| done]. constructor; [| done].
        unfold status_fails. by rewrite Hs.
      * right. exists s', m', c'. split; [apply elem_of_cons; by right | done].
Qed.

Lemma request_log (self : TeamRedMinerApi.t) (command : string)
    (log : list string) :
  snd (request self command log) = log ++ [command].
Proof.
  unfold request, io_bind, io_sent, io_lift.
  destruct (net self command) as [e | r]; [done |].
  destruct (raise_for_status r); [done |].
  by destruct (resp_id r).
Qed.

Lemma request_replied (self : TeamRedMinerApi.t) (command : string)
    (log : list string) (r : response) :
  net self command = Replies r →
  fst (request self command log)
  = try _ <- raise_for_status r;
    try _ <- match resp_id r with
             | Some v => inr v
             | None => inl (KeyError "id")
             end;
    match resp_rest r with
    | (_, payload) :: _ => inr payload
    | [] => inl (IndexError "list index out of range")
    end.
Proof.
  intros Hnet. unfold request, io_bind, io_sent, io_lift. rewrite Hnet.
  destruct (raise_for_status r); [done |].
  by destruct (resp_id r).
Qed.

(** C4: on a response whose [STATUS] elements are well formed, [request]
    raises an API error if and only if some element has status code W, E
    or F, and the error carries the message and the code that element
    reports; when no element has such a code the validation passes. *)
Theorem request_api_error_iff (self : TeamRedMinerApi.t) (command : string)
    (log : list string) (r : response) (statuses : list record) :
  net self command = Replies r →
  resp_STATUS r = Some statuses →
  Forall well_formed_status statuses →
  let outcome := fst (request self command log) in
  ((∃ msg, outcome = inl (ApiError msg))
   ↔ Exists (fun s => status_fails s = true) statuses)
  ∧ (Exists (fun s => status_fails s = true) statuses →
     ∃ s message code,
       s ∈ statuses ∧ status_fails s = true
       ∧ s !! "Msg" = Some message ∧ s !! "Code" = Some code
       ∧ outcome = inl (ApiError ("API error: " +:+ py_str message
                                  +:+ " (code " +:+ py_str code +:+ ")")))
  ∧ (Forall (fun s => status_fails s = false) statuses →
     raise_for_status r = inr tt)
  ∧ (∀ s, status_fails s = true
          ↔ ∃ code, s !! "STATUS" = Some (JStr code)
                    ∧ (code = "W" ∨ code = "E" ∨ code = "F")).
Proof.
  intros Hnet Hstatus Hwf outcome.
  assert (Forall (fun s => status_fails s = false) statuses →
          ¬ Exists (fun s => status_fails s = true) statuses) as Hnone.
  { intros Hall Hex. apply Exists_exists in Hex as (s & Hin & Hs).
    rewrite Forall_forall in Hall. specialize (Hall s Hin). congruence. }
  assert (outcome
          = try _ <- raise_for_status_loop statuses;
            try _ <- match resp_id r with
                     | Some v => inr v
                     | None => inl (KeyError "id")
                     end;
            match resp_rest r with
            | (_, payload) :: _ => inr payload
            | [] => inl (IndexError "list index out of range")
            end) as Houtcome.
  { unfold outcome. rewrite (request_replied self command log r Hnet).
    unfold raise_for_status. by rewrite Hstatus. }
  destruct (raise_for_status_loop_cases statuses Hwf)
    as [[Hall Hloop] | (s & message & code & Hin & Hs & Hm & Hc & Hloop)].
  - split; [| split; [| split]].
    + split; [| by intros Hex; destruct (Hnone Hall Hex)].
      intros [msg Hmsg]. rewrite Houtcome, Hloop in Hmsg. cbn in Hmsg.
      destruct (resp_id r); cbn in Hmsg; [| done].
      by destruct (resp_rest r) as [| [] ?].
    + intros Hex. destruct (Hnone Hall Hex).
    + intros _. unfold raise_for_status. by rewrite Hstatus.
    + apply status_fails_codes.
  - assert (Exists (fun s => status_fails s = true) statuses) as Hex.
    { apply Exists_exists. eauto. }
    rewrite Houtcome, Hloop. cbn.
    split; [| split; [| split]].
    + split; eauto.
    + intros _. exists s, message, code. done.
    + intros Hall. destruct (Hnone Hall Hex).
    + apply status_fails_codes.
Qed.

(** ** The outermost boundary *)

Lemma raise_for_status_loop_first (before after : list record) (s : record)
    (message code : jvalue) :
  Forall well_formed_status before →
  Forall (fun s => status_fails s = false) before →
  status_fails s = true →
  s !! "Msg" = Some message → s !! "Code" = Some code →
  raise_for_status_loop (before ++ s :: after)
  = inl (ApiError (api_error_text message code)).
Proof.
  intros Hwf Hpass Hs Hm Hc.
  induction Hwf as [| s' rest ([status Hs'] & [c' Hc'] & [m' Hm']) _ IH]; cbn.
  - unfold status_fails in Hs. unfold getitem. rewrite Hm, Hc.
    destruct (s !! "STATUS") as [status|]; [| done]. cbn. by rewrite Hs.
  - apply Forall_cons in Hpass as [Hpass' Hpass].
    unfold status_fails in Hpass'. unfold getitem. rewrite Hs', Hc', Hm'.
    rewrite Hs' in Hpass'. cbn. rewrite Hpass'. by apply IH.
Qed.

Lemma probe_log (self : TeamRedMiner.t) (log : list string) :
  snd (probe self log) = log ++ ["summary"]
  ∨ snd (probe self log) = log ++ ["summary"; "devs"].
Proof.
  unfold probe, io_bind. fold (client_of self).
  pose proof (request_log (client_of self) "summary" log) as Hfirst.
  destruct (request (client_of self) "summary" log) as [[e | payload] log1];
    cbn in Hfirst; subst log1; [by left |].
  unfold io_lift, io_ret.
  destruct (first_record payload) as [e | summary]; [by left |].
  assert (snd (let (r, log') := request (client_of self) "devs"
                                  (log ++ ["summary"]) in
               match r with
               | inl e => (inl e, log')
               | inr devices => (inr devices, log')
               end) = log ++ ["summary"; "devs"]) as Hsecond.
  { pose proof (request_log (client_of self) "devs" (log ++ ["summary"])) as H.
    destruct (request (client_of self) "devs" (log ++ ["summary"]))
      as [[e | devices] log2]; cbn in *; subst log2; by rewrite <- app_assoc. }
  destruct (summary !! "Elapsed") as [uptime|].
  - destruct (py_gt uptime 1) as [e | b]; [by left |]. right.
    destruct (request (client_of self) "devs" (log ++ ["summary"]))
      as [[e | devices] log2]; exact Hsecond.
  - right.
    destruct (request (client_of self) "devs" (log ++ ["summary"]))
      as [[e | devices] log2]; exact Hsecond.
Qed.

Lemma Check_main_log (check : Check) (log : list string) :
  snd (Check_main check log) = snd (probe (resource check) log).
Proof.
  unfold Check_main, io_bind, io_lift, io_ret.
  destruct (probe (resource check) log) as [[e | metrics] log1]; [done |].
  by destruct (evaluate_metrics (contexts check) metrics).
Qed.

Lemma main_runs_check (args : Args.t) :
  Args.show_version args = false →
  main args
  = match Check_main (main_check args) [] with
    | (inr outcome, log) => (Outcome outcome, log)
    | (inl err, log) => (failed err, log)
    end.
Proof. intros Hversion. unfold main. by rewrite Hversion. Qed.

(** C5: [main] has one boundary, its [except] clause, and every exception
    of the probe or of the evaluation ends there: the outcome is Unknown
    (exit code 3) and its text is the error's message after the words
    [Failed to execute check: ].  This holds for an exception of the
    socket or of the decoder and for an API error; a [STATUS] array whose
    first failing element is [{"STATUS": "E", "Code": 1, "Msg": "bad
    command"}] gives Unknown with a text that contains [bad command].
    Nothing is retried: [main] sends "summary" once and then at most
    "devs" once. *)
Theorem main_exception_boundary (args : Args.t) :
  Args.show_version args = false →
  let self := resource (main_check args) in
  (∀ err log,
     probe self [] = (inl err, log) → main args = (failed err, log))
  ∧ (∀ metrics log err,
       probe self [] = (inr metrics, log) →
       evaluate_metrics (contexts (main_check args)) metrics = inl err →
       main args = (failed err, log))
  ∧ (∀ err,
       net (client_of self) "summary" = Fails err →
       main args = (failed err, ["summary"]))
  ∧ (∀ r before after,
       net (client_of self) "summary" = Replies r →
       resp_STATUS r = Some (before ++ bad_command :: after) →
       Forall well_formed_status before →
       Forall (fun s => status_fails s = false) before →
       main args
       = (failed (ApiError "API error: bad command (code 1)"), ["summary"]))
  ∧ (∀ err,
       failed err
       = Outcome {| overallSeverity := Unknown;
                    problemText := "Failed to execute check: " +:+ exn_str err;
                    results := [];
                    perfData := [] |})
  ∧ state_code Unknown = 3
  ∧ is_substring "bad command"
      ("Failed to execute check: "
       +:+ exn_str (ApiError "API error: bad command (code 1)")) = true
  ∧ (snd (main args) = ["summary"] ∨ snd (main args) = ["summary"; "devs"]).
Proof.
  intros Hversion self.
  pose proof (main_runs_check args Hversion) as Hmain.
  assert (∀ err log, probe self [] = (inl err, log) →
                     main args = (failed err, log)) as Hprobe.
  { intros err log Hp. rewrite Hmain. unfold Check_main, io_bind.
    fold self. by rewrite Hp. }
  assert (∀ err, fst (request (client_of self) "summary" []) = inl err →
                 main args = (failed err, ["summary"])) as Hrequest.
  { intros err Hreq. apply Hprobe. unfold probe, io_bind.
    fold (client_of self).
    pose proof (request_log (client_of self) "summary" []) as Hlog.
    destruct (request (client_of self) "summary" []) as [res log].
    cbn in Hreq, Hlog. by subst. }
  split; [exact Hprobe |].
  split; [| split; [| split; [| split; [| split; [| split]]]]];
    try reflexivity.
  - intros metrics log err Hp He. rewrite Hmain.
    unfold Check_main, io_bind, io_lift. fold self. by rewrite Hp, He.
  - intros err Hnet. apply Hrequest.
    unfold request, io_bind, io_sent, io_lift. by rewrite Hnet.
  - intros r before after Hnet Hstatus Hwf Hpass. apply Hrequest.
    rewrite (request_replied _ _ _ r Hnet).
    unfold raise_for_status. rewrite Hstatus.
    by rewrite (raise_for_status_loop_first before after bad_command
                  (JStr "bad command") (JInt 1)).
  - rewrite Hmain.
    pose proof (Check_main_log (main_check args) []) as Hlog.
    pose proof (probe_log self []) as Hsent. fold self in Hlog.
    destruct (Check_main (main_check args) []) as [[err | outcome] log];
      cbn in *; by rewrite Hlog.
Qed.

(** * Further properties of the code *)

(** ** The protocol client, continued *)

Lemma raise_for_status_loop_skip (before rest : list record) :
  Forall well_formed_status before →
  Forall (fun s => status_fails s = false) before →
  raise_for_status_loop (before ++ rest) = raise_for_status_loop rest.
Proof.
  intros Hwf Hpass.
  induction Hwf as [| s before' ([status Hs] & [code Hc] & [message Hm]) _ IH];
    [reflexivity |].
  apply Forall_cons in Hpass as [Hpass' Hpass].
  unfold status_fails in Hpass'. rewrite Hs in Hpass'.
  cbn. unfold getitem. rewrite Hs, Hc, Hm. cbn. rewrite Hpass'. by apply IH.
Qed.

(** X1: when the miner replies and the status check passes, [request]
    looks for [id] before the payload: without [id] it raises
    [KeyError('id')] even if a payload is there; with [id] and no other
    key it raises [IndexError]; otherwise it returns the value of the
    first remaining key and ignores the keys after it. *)
Theorem request_envelope_order (self : TeamRedMinerApi.t) (command : string)
    (log : list string) (r : response) :
  net self command = Replies r →
  raise_for_status r = inr tt →
  request self command log
  = (match resp_id r, resp_rest r with
     | None, _ => inl (KeyError "id")
     | Some _, [] => inl (IndexError "list index out of range")
     | Some _, (_, payload) :: _ => inr payload
     end, log ++ [command]).
Proof.
  intros Hnet Hstatus.
  pose proof (request_replied self command log r Hnet) as Hfst.
  pose proof (request_log self command log) as Hsnd.
  destruct (request self command log) as [outcome log'].
  cbn in Hfst, Hsnd. subst outcome log'. rewrite Hstatus. cbn.
  destruct (resp_id r); cbn; [| reflexivity].
  by destruct (resp_rest r) as [| [key payload] rest].
Qed.

(** X2: [raise_for_status] stops at the first element whose status code
    is W, E or F and raises the API error of that element; the elements
    after it are never read, so they may report other errors or lack
    keys. *)
Theorem raise_for_status_first_failure (r : response)
    (before after : list record) (s : record) (message code : jvalue) :
  resp_STATUS r = Some (before ++ s :: after) →
  Forall well_formed_status before →
  Forall (fun s => status_fails s = false) before →
  status_fails s = true →
  s !! "Msg" = Some message →
  s !! "Code" = Some code →
  raise_for_status r
  = inl (ApiError ("API error: " +:+ py_str message
                   +:+ " (code " +:+ py_str code +:+ ")")).
Proof.
  intros Hstatus Hwf Hpass Hs Hm Hc.
  unfold raise_for_status. rewrite Hstatus.
  by apply raise_for_status_loop_first.
Qed.

(** X3: an element of [STATUS] that lacks one of the keys [STATUS],
    [Code], [Msg] makes [raise_for_status] raise a [KeyError] for the
    first key it lacks, whatever its status code is: all three keys are
    read before the code is tested. *)
Theorem raise_for_status_missing_key (r : response)
    (before after : list record) (s : record) (key : string) :
  resp_STATUS r = Some (before ++ s :: after) →
  Forall well_formed_status before →
  Forall (fun s => status_fails s = false) before →
  first_missing s = Some key →
  raise_for_status r = inl (KeyError key).
Proof.
  intros Hstatus Hwf Hpass Hmissing.
  unfold raise_for_status. rewrite Hstatus.
  rewrite (raise_for_status_loop_skip before (s :: after) Hwf Hpass).
  unfold first_missing in Hmissing. cbn. unfold getitem.
  destruct (s !! "STATUS"); [| by injection Hmissing as <-].
  destruct (s !! "Code"); [| by injection Hmissing as <-].
  destruct (s !! "Msg"); [done | by injection Hmissing as <-].
Qed.

(** ** The probe, continued *)

Lemma request_pair (self : TeamRedMinerApi.t) (command : string)
    (log : list string) :
  request self command log
  = (fst (request self command log), log ++ [command]).
Proof.
  rewrite <- (request_log self command log). by destruct (request self command log).
Qed.

Lemma probe_summary_raises (self : TeamRedMiner.t) (log : list string) (e : exn) :
  fst (request (client_of self) "summary" log) = inl e →
  probe self log = (inl e, log ++ ["summary"]).
Proof.
  intros Hreq. unfold probe, io_bind. fold (client_of self).
  rewrite (request_pair (client_of self) "summary" log). by rewrite Hreq.
Qed.

Lemma probe_summary_empty (self : TeamRedMiner.t) (log : list string) :
  fst (request (client_of self) "summary" log) = inr [] →
  probe self log
  = (inl (IndexError "list index out of range"), log ++ ["summary"]).
Proof.
  intros Hreq. unfold probe, io_bind. fold (client_of self).
  rewrite (request_pair (client_of self) "summary" log). by rewrite Hreq.
Qed.

Lemma probe_elapsed_unorderable (self : TeamRedMiner.t) (log : list string)
    (summary : record) (more : list record) (uptime : jvalue) :
  fst (request (client_of self) "summary" log) = inr (summary :: more) →
  summary !! "Elapsed" = Some uptime →
  is_number uptime = false →
  probe self log = (inl (unorderable ">" uptime), log ++ ["summary"]).
Proof.
  intros Hreq Helapsed Hnumber. unfold probe, io_bind. fold (client_of self).
  rewrite (request_pair (client_of self) "summary" log), Hreq. cbn.
  rewrite Helapsed. by destruct uptime.
Qed.

Lemma probe_after_summary (self : TeamRedMiner.t) (log : list string)
    (summary : record) (more : list record) :
  fst (request (client_of self) "summary" log) = inr (summary :: more) →
  (∀ uptime, summary !! "Elapsed" = Some uptime → is_number uptime = true) →
  probe self log
  = match fst (request (client_of self) "devs" (log ++ ["summary"])) with
    | inl e => (inl e, log ++ ["summary"; "devs"])
    | inr devices =>
        (inr (summary_metrics summary ++ flat_map device_metrics devices),
         log ++ ["summary"; "devs"])
    end.
Proof.
  intros Hreq Huptime.
  pose proof (request_pair (client_of self) "summary" log) as Hsummary.
  rewrite Hreq in Hsummary.
  pose proof (request_pair (client_of self) "devs" (log ++ ["summary"]))
    as Hdevs.
  rewrite <- app_assoc in Hdevs. cbn [app] in Hdevs.
  destruct (fst (request (client_of self) "devs" (log ++ ["summary"])))
    as [e | devices].
  - unfold probe, io_bind. fold (client_of self).
    remember (request (client_of self) "devs") as request_devs.
    rewrite Hsummary. cbn.
    destruct (summary !! "Elapsed") as [uptime|] eqn:Helapsed.
    + specialize (Huptime uptime eq_refl). unfold py_gt, io_lift.
      destruct (compare_int uptime 1) as [[[]|]|] eqn:Hcmp;
        [| | | | by destruct uptime]; cbn; by rewrite Hdevs.
    + cbn. by rewrite Hdevs.
  - by apply (probe_succeeds self summary more devices log (log ++ ["summary"])).
Qed.

Lemma probe_inversion (self : TeamRedMiner.t) (log log' : list string)
    (metrics : list Metric.t) :
  probe self log = (inr metrics, log') →
  ∃ summary devices,
    metrics = summary_metrics summary ++ flat_map device_metrics devices.
Proof.
  intros Hprobe.
  destruct (fst (request (client_of self) "summary" log))
    as [e | [| summary more]] eqn:Hreq.
  - by rewrite (probe_summary_raises self log e Hreq) in Hprobe.
  - by rewrite (probe_summary_empty self log Hreq) in Hprobe.
  - destruct (summary !! "Elapsed") as [uptime|] eqn:Helapsed.
    + destruct (is_number uptime) eqn:Hnumber.
      * rewrite (probe_after_summary self log summary more Hreq) in Hprobe.
        -- destruct (fst (request (client_of self) "devs" (log ++ ["summary"])))
             as [e | devices]; [done |].
           injection Hprobe as <- _. eauto.
        -- intros uptime' Hu. rewrite Helapsed in Hu. by injection Hu as <-.
      * by rewrite (probe_elapsed_unorderable self log summary more uptime
                      Hreq Helapsed Hnumber) in Hprobe.
    + rewrite (probe_after_summary self log summary more Hreq) in Hprobe.
      * destruct (fst (request (client_of self) "devs" (log ++ ["summary"])))
          as [e | devices]; [done |].
        injection Hprobe as <- _. eauto.
      * intros uptime' Hu. by rewrite Helapsed in Hu.
Qed.

(** X4: [probe] asks for "devs" exactly when "summary" was answered with
    a first record whose "Elapsed", if present, is a number; in every other
    case it stops after the one request. *)
Theorem probe_requests_devs_iff (self : TeamRedMiner.t) (log : list string) :
  snd (probe self log) = log ++ ["summary"; "devs"]
  ↔ ∃ summary more,
      fst (request (client_of self) "summary" log) = inr (summary :: more)
      ∧ ∀ uptime, summary !! "Elapsed" = Some uptime → is_number uptime = true.
Proof.
  assert (log ++ ["summary"] ≠ log ++ ["summary"; "devs"]) as Hshort.
  { intros Heq. by apply app_inv_head in Heq. }
  split.
  - intros Hlog.
    destruct (fst (request (client_of self) "summary" log))
      as [e | [| summary more]] eqn:Hreq.
    + by rewrite (probe_summary_raises self log e Hreq) in Hlog.
    + by rewrite (probe_summary_empty self log Hreq) in Hlog.
    + exists summary, more. split; [reflexivity |].
      intros uptime Helapsed.
      destruct (is_number uptime) eqn:Hnumber; [reflexivity |].
      by rewrite (probe_elapsed_unorderable self log summary more uptime
                    Hreq Helapsed Hnumber) in Hlog.
  - intros (summary & more & Hreq & Huptime).
    rewrite (probe_after_summary self log summary more Hreq Huptime).
    by destruct (fst (request (client_of self) "devs" (log ++ ["summary"]))).
Qed.

(** X5: what stops [probe] before the devices: an exception of the
    "summary" request is passed on; an empty summary array raises
    [IndexError]; an "Elapsed" that is not a number raises the
    [TypeError] of [uptime > 1].  In each case only "summary" was
    requested. *)
Theorem probe_summary_failures (self : TeamRedMiner.t) (log : list string) :
  (∀ e,
     fst (request (client_of self) "summary" log) = inl e →
     probe self log = (inl e, log ++ ["summary"]))
  ∧ (fst (request (client_of self) "summary" log) = inr [] →
     probe self log
     = (inl (IndexError "list index out of range"), log ++ ["summary"]))
  ∧ (∀ summary more uptime,
       fst (request (client_of self) "summary" log) = inr (summary :: more) →
       summary !! "Elapsed" = Some uptime →
       is_number uptime = false →
       probe self log
       = (inl (TypeError ("'>' not supported between instances of '"
                          +:+ type_name uptime +:+ "' and 'int'")),
          log ++ ["summary"])).
Proof.
  split; [| split].
  - apply probe_summary_raises.
  - apply probe_summary_empty.
  - apply probe_elapsed_unorderable.
Qed.

Lemma device_metrics_without_GPU (device : record) :
  device !! "GPU" = None → device_metrics device = [].
Proof. intros Hgpu. unfold device_metrics. by rewrite Hgpu. Qed.

(** X6: the loop of [probe] over the devices skips every record that has
    no "GPU" key, whatever else the record holds: the metrics are those
    of the records that have one. *)
Theorem probe_skips_devices_without_GPU (devices : list record)
    (metrics : list Metric.t) :
  fold_left probe_device devices metrics
  = fold_left probe_device
      (filter (fun device => is_Some (device !! "GPU")) devices) metrics.
Proof.
  rewrite !probe_devices_append. f_equal.
  induction devices as [| device devices IH]; [reflexivity |].
  destruct (device !! "GPU") as [id|] eqn:Hgpu.
  - rewrite filter_cons_True by (rewrite Hgpu; eauto). cbn. by rewrite IH.
  - rewrite filter_cons_False by (rewrite Hgpu; by intros [? ?]).
    cbn. by rewrite (device_metrics_without_GPU device Hgpu).
Qed.

(** X8: every metric [probe] returns names a context that [main]
    registers in its check ("hashrate", "uptime", "temperature" or
    "alive"), so none is left without a context. *)
Theorem probe_contexts_registered (self : TeamRedMiner.t)
    (log log' : list string) (metrics : list Metric.t) (m : Metric.t)
    (args : Args.t) :
  probe self log = (inr metrics, log') →
  m ∈ metrics →
  Metric.context m ∈ map Context_name (contexts (main_check args)).
Proof.
  intros Hprobe Hin.
  destruct (probe_inversion self log log' metrics Hprobe)
    as (summary & devices & ->).
  change (map Context_name (contexts (main_check args)))
    with ["hashrate"; "uptime"; "temperature"; "alive"].
  apply elem_of_app in Hin as [Hin | Hin].
  - unfold summary_metrics, when_present in Hin.
    destruct (summary !! "MHS 30s"), (summary !! "Elapsed"); cbn in Hin;
      repeat (apply elem_of_cons in Hin as [-> | Hin]; [set_solver |]);
      by apply elem_of_nil in Hin.
  - apply list_elem_of_In, in_flat_map in Hin as (device & _ & Hin).
    apply list_elem_of_In in Hin.
    unfold device_metrics, when_present in Hin.
    destruct (device !! "GPU") as [id|]; [| by apply elem_of_nil in Hin].
    destruct (device !! "Status"), (device !! "Temperature"),
      (device !! "TemperatureMem"); cbn in Hin;
      repeat (apply elem_of_cons in Hin as [-> | Hin]; [set_solver |]);
      by apply elem_of_nil in Hin.
Qed.

Lemma elem_of_names (name : string) (metrics : list Metric.t) :
  name ∈ Metric.name <$> metrics ↔ emitted name metrics.
Proof.
  unfold emitted. rewrite list_elem_of_fmap. split.
  - intros (m & -> & Hin). eauto.
  - intros (m & Hin & <-). eauto.
Qed.

Lemma gpu_ids_cons (device : record) (devices : list record) :
  gpu_ids (device :: devices)
  = match device !! "GPU" with
    | Some id => py_str id :: gpu_ids devices
    | None => gpu_ids devices
    end.
Proof. unfold gpu_ids. cbn. by destruct (device !! "GPU"). Qed.

Lemma emitted_devices_gpu_id (name : string) (devices : list record) :
  emitted name (flat_map device_metrics devices) →
  ∃ idtext, idtext ∈ gpu_ids devices
            ∧ (name = "alive_" +:+ idtext
               ∨ name = "temperature_" +:+ idtext
               ∨ name = "memory_temperature_" +:+ idtext).
Proof.
  intros Hemitted.
  apply emitted_devices in Hemitted as (device & Hin & Hdevice).
  apply emitted_device in Hdevice as (id & Hgpu & Hcase).
  exists (py_str id). split.
  - unfold gpu_ids. apply list_elem_of_omap. exists device.
    split; [done |]. by rewrite Hgpu.
  - destruct Hcase as [[_ ->] | [[_ ->] | [_ ->]]]; auto.
Qed.

Ltac names_differ :=
  repeat (apply NoDup_cons; split);
  first [ apply NoDup_nil_2
        | rewrite ?elem_of_cons, ?elem_of_nil; cbn;
          let H := fresh in intros H; decompose [or] H; done ].

Lemma device_names_NoDup (device : record) :
  NoDup (Metric.name <$> device_metrics device).
Proof.
  unfold device_metrics, when_present.
  destruct (device !! "GPU") as [id|]; [| apply NoDup_nil_2].
  destruct (device !! "Status"), (device !! "Temperature"),
    (device !! "TemperatureMem"); cbn; names_differ.
Qed.

Lemma devices_names_NoDup (devices : list record) :
  NoDup (gpu_ids devices) →
  NoDup (Metric.name <$> flat_map device_metrics devices).
Proof.
  induction devices as [| device devices IH]; [intros _; apply NoDup_nil_2 |].
  rewrite gpu_ids_cons. intros Hids. cbn. rewrite fmap_app.
  destruct (device !! "GPU") as [id|] eqn:Hgpu.
  - apply NoDup_cons in Hids as [Hfresh Hids].
    apply NoDup_app. split; [apply device_names_NoDup |].
    split; [| by apply IH].
    intros name Hhere%elem_of_names Hthere%elem_of_names.
    apply emitted_device in Hhere as (id' & Hgpu' & Hhere).
    rewrite Hgpu in Hgpu'. injection Hgpu' as <-.
    apply emitted_devices_gpu_id in Hthere as (idtext & Hin & Hthere).
    assert (py_str id = idtext) as Hsame.
    { destruct Hhere as [[_ ->] | [[_ ->] | [_ ->]]];
        destruct Hthere as [Hname | [Hname | Hname]];
        cbn in Hname; by simplify_eq. }
    by subst idtext.
  - rewrite (device_metrics_without_GPU device Hgpu). cbn. by apply IH.
Qed.

(** X7: when the device records that have a GPU id print pairwise
    different ids, the metrics of one successful probe have pairwise
    different names. *)
Theorem probe_metric_names_unique (self : TeamRedMiner.t) (summary : record)
    (more devices : list record) (log log1 log2 : list string) :
  request (client_of self) "summary" log = (inr (summary :: more), log1) →
  request (client_of self) "devs" log1 = (inr devices, log2) →
  (∀ uptime, summary !! "Elapsed" = Some uptime → is_number uptime = true) →
  NoDup (gpu_ids devices) →
  ∃ metrics,
    probe self log = (inr metrics, log2) ∧ NoDup (Metric.name <$> metrics).
Proof.
  intros Hsummary Hdevs Huptime Hids.
  eexists.
  split; [by apply (probe_succeeds self summary more devices log log1 log2) |].
  rewrite fmap_app. apply NoDup_app.
  split; [| split; [| by apply devices_names_NoDup]].
  - unfold summary_metrics, when_present.
    destruct (summary !! "MHS 30s"), (summary !! "Elapsed"); cbn;
      names_differ.
  - intros name Hhere%elem_of_names Hthere%elem_of_names.
    apply emitted_summary in Hhere.
    apply emitted_devices_gpu_id in Hthere as (idtext & _ & Hthere).
    destruct Hhere as [[_ ->] | [_ ->]];
      destruct Hthere as [Hname | [Hname | Hname]]; done.
Qed.

(** ** The threshold-below context, continued *)

Lemma py_le_int (n z : Z) : py_le (JInt n) z = inr (n <=? z).
Proof.
  unfold py_le. cbn.
  destruct (Z.compare_spec n z), (Z.leb_spec n z); try reflexivity; lia.
Qed.

Lemma below_bound_int (bound : option Z) (n : Z) :
  below_bound bound (JInt n) = inr (reached bound n).
Proof.
  unfold below_bound, reached. destruct bound as [z|]; [| reflexivity].
  destruct (z =? 0); [reflexivity |]. by rewrite py_le_int.
Qed.

Lemma below_bound_true (bound : option Z) (v : jvalue) :
  below_bound bound v = inr true →
  ∃ z, bound = Some z ∧ z ≠ 0 ∧ py_le v z = inr true.
Proof.
  unfold below_bound. destruct bound as [z|]; [| done].
  destruct (Z.eqb_spec z 0); [done |]. eauto.
Qed.

Lemma below_bound_non_number (bound : option Z) (v : jvalue) :
  is_number v = false →
  below_bound bound v
  = if effective bound then inl (unorderable "<=" v) else inr false.
Proof.
  intros Hv. unfold below_bound, effective.
  destruct bound as [z|]; [| reflexivity].
  destruct (z =? 0); [reflexivity |]. by destruct v.
Qed.

Lemma evaluate_int_verdict (warning critical : option Z) (metric : Metric.t)
    (n : Z) :
  Metric.value metric = JInt n →
  verdict (BelowThresholdContext_evaluate warning critical metric)
  = Some (if reached critical n then Critical
          else if reached warning n then Warn else Ok).
Proof.
  intros Hn. unfold BelowThresholdContext_evaluate.
  rewrite Hn, !below_bound_int. cbn.
  by destruct (reached critical n), (reached warning n).
Qed.

Lemma reached_antitone (bound : option Z) (n1 n2 : Z) :
  n1 ≤ n2 → reached bound n2 = true → reached bound n1 = true.
Proof.
  unfold reached. destruct bound as [z|]; [| done].
  rewrite !andb_true_iff, !Z.leb_le. intros Hle [Hz Hn]. split; [done | lia].
Qed.

(** X9: on integer values the threshold-below context never judges a
    lower value less severe than a higher one, whatever the bounds. *)
Theorem BelowThresholdContext_evaluate_antitone (warning critical : option Z)
    (m1 m2 : Metric.t) (n1 n2 : Z) :
  Metric.value m1 = JInt n1 →
  Metric.value m2 = JInt n2 →
  n1 ≤ n2 →
  ∃ s1 s2,
    verdict (BelowThresholdContext_evaluate warning critical m1) = Some s1
    ∧ verdict (BelowThresholdContext_evaluate warning critical m2) = Some s2
    ∧ state_code s2 ≤ state_code s1.
Proof.
  intros H1 H2 Hle.
  rewrite (evaluate_int_verdict warning critical m1 n1 H1),
    (evaluate_int_verdict warning critical m2 n2 H2).
  eexists _, _. split; [reflexivity |]. split; [reflexivity |].
  pose proof (reached_antitone critical n1 n2 Hle) as Hcritical.
  pose proof (reached_antitone warning n1 n2 Hle) as Hwarning.
  destruct (reached critical n2), (reached warning n2),
    (reached critical n1), (reached warning n1); cbn;
    try lia; try (by specialize (Hcritical eq_refl));
    by specialize (Hwarning eq_refl).
Qed.

(** X10: a warning bound that is not above a critical bound other than 0
    is shadowed: on integer values the threshold-below context then never
    gives Warning, since every value the warning bound catches is caught
    as Critical first. *)
Theorem BelowThresholdContext_warning_shadowed (warning critical : Z)
    (metric : Metric.t) (n : Z) :
  Metric.value metric = JInt n →
  critical ≠ 0 →
  warning ≤ critical →
  verdict (BelowThresholdContext_evaluate (Some warning) (Some critical) metric)
  ≠ Some Warn.
Proof.
  intros Hn Hc Hle. rewrite (evaluate_int_verdict _ _ metric n Hn).
  unfold reached.
  destruct (Z.eqb_spec critical 0); [done |].
  destruct (Z.leb_spec n critical), (Z.leb_spec n warning),
    (warning =? 0); cbn; try done; lia.
Qed.

(** X11: a value that is not a number ([None] or a string) makes the
    threshold-below context raise the [TypeError] of [<=] as soon as one
    bound is an integer other than 0; with no such bound the value is
    never compared and the result is Ok. *)
Theorem BelowThresholdContext_evaluate_non_number (warning critical : option Z)
    (metric : Metric.t) :
  is_number (Metric.value metric) = false →
  BelowThresholdContext_evaluate warning critical metric
  = if effective critical || effective warning
    then inl (TypeError ("'<=' not supported between instances of '"
                         +:+ type_name (Metric.value metric) +:+ "' and 'int'"))
    else inr {| Result.state := Ok; Result.hint := None;
                Result.metric := metric |}.
Proof.
  intros Hv. unfold BelowThresholdContext_evaluate.
  rewrite !(below_bound_non_number _ _ Hv).
  by destruct (effective critical), (effective warning).
Qed.

(** X12: for a metric without a unit (no [uom], or an empty one) the
    hint of a Critical or Warning result of the threshold-below context
    ends in the text [None]. *)
Theorem BelowThresholdContext_hint_without_unit (warning critical : option Z)
    (metric : Metric.t) (r : Result.t) :
  Metric.uom metric = None ∨ Metric.uom metric = Some "" →
  BelowThresholdContext_evaluate warning critical metric = inr r →
  Result.state r ≠ Ok →
  ∃ bound,
    (Result.state r = Critical ∧ critical = Some bound
     ∨ Result.state r = Warn ∧ warning = Some bound)
    ∧ Result.hint r
      = Some (py_str (Metric.value metric) +:+ "<=" +:+ int_str bound
              +:+ "None").
Proof.
  intros Hunit Heval Hstate.
  assert (unit_of metric = None) as Hnone.
  { unfold unit_of. by destruct Hunit as [-> | ->]. }
  unfold BelowThresholdContext_evaluate in Heval. rewrite Hnone in Heval.
  destruct (below_bound critical (Metric.value metric)) as [e | []] eqn:Hc;
    cbn in Heval; [done | |].
  - apply below_bound_true in Hc as (c & -> & _ & _).
    injection Heval as <-. exists c. cbn. split; [by left | reflexivity].
  - destruct (below_bound warning (Metric.value metric)) as [e | []] eqn:Hw;
      cbn in Heval; [done | |].
    + apply below_bound_true in Hw as (w & -> & _ & _).
      injection Heval as <-. exists w. cbn. split; [by right | reflexivity].
    + injection Heval as <-. by cbn in Hstate.
Qed.

(** X13: whenever the threshold-below context returns a result, the
    result is about the metric it was given, its state is never Unknown,
    it has a hint exactly when it is not Ok, a Critical state comes from
    a critical bound other than 0 that the value reached, and a Warning
    state from such a warning bound. *)
Theorem BelowThresholdContext_evaluate_result (warning critical : option Z)
    (metric : Metric.t) (r : Result.t) :
  BelowThresholdContext_evaluate warning critical metric = inr r →
  Result.metric r = metric
  ∧ Result.state r ≠ Unknown
  ∧ (Result.hint r = None ↔ Result.state r = Ok)
  ∧ (Result.state r = Critical →
     ∃ c, critical = Some c ∧ c ≠ 0
          ∧ py_le (Metric.value metric) c = inr true)
  ∧ (Result.state r = Warn →
     ∃ w, warning = Some w ∧ w ≠ 0
          ∧ py_le (Metric.value metric) w = inr true).
Proof.
  intros Heval. unfold BelowThresholdContext_evaluate in Heval.
  destruct (below_bound critical (Metric.value metric)) as [e | []] eqn:Hc;
    cbn in Heval; [done | |].
  - injection Heval as <-. cbn.
    split; [done |]. split; [done |]. split; [split; done |].
    split; [| done]. intros _. by apply below_bound_true.
  - destruct (below_bound warning (Metric.value metric)) as [e | []] eqn:Hw;
      cbn in Heval; [done | |]; injection Heval as <-; cbn.
    + split; [done |]. split; [done |]. split; [split; done |].
      split; [done |]. intros _. by apply below_bound_true.
    + split; [done |]. split; [done |]. split; [split; done |]. split; done.
Qed.

(** ** The boolean context, continued *)

(** X14: the boolean context tests identity, so a value that is not a
    boolean never matches the expected one, not even the integer 1 against
    [True]: the result is that of a mismatch. *)
Theorem BooleanContext_evaluate_not_bool (expected warning critical : bool)
    (metric : Metric.t) :
  (∀ b, Metric.value metric ≠ JBool b) →
  BooleanContext_evaluate expected warning critical metric
  = {| Result.state :=
         if critical then Critical else if warning then Warn else Ok;
       Result.hint :=
         Some (Metric.name metric +:+ " is not " +:+ bool_str expected);
       Result.metric := metric |}.
Proof.
  intros Hvalue. unfold BooleanContext_evaluate.
  destruct (Metric.value metric) as [| b | n | f | s] eqn:Hv; try reflexivity.
  by destruct (Hvalue b).
Qed.

(** ** The summary, continued *)

Lemma string_app_assoc (a b c : string) : (a +:+ b) +:+ c = a +:+ b +:+ c.
Proof.
  induction a as [| x a IH]; [reflexivity |].
  change (String x ((a +:+ b) +:+ c) = String x (a +:+ b +:+ c)).
  by rewrite IH.
Qed.

Lemma string_app_empty (a b : string) : a +:+ b = "" → a = "".
Proof. by destruct a. Qed.

Lemma render_nonempty (r : Result.t) : render r ≠ "".
Proof.
  unfold render. intros Hempty.
  apply string_app_empty in Hempty as Hname. rewrite Hname in Hempty.
  discriminate.
Qed.

Lemma join_cons (sep s : string) (l : list string) :
  l ≠ [] → join sep (s :: l) = s +:+ sep +:+ join sep l.
Proof. by destruct l. Qed.

Lemma join_nonempty (sep : string) (l : list string) :
  Forall (fun s => s ≠ "") l → l ≠ [] → join sep l ≠ "".
Proof.
  intros Hall Hne. destruct Hall as [| s rest Hs Hrest]; [done |].
  destruct rest as [| s' rest]; [done |].
  rewrite join_cons by done. intros Hempty.
  by apply string_app_empty in Hempty.
Qed.

Lemma join_app (sep : string) (l1 l2 : list string) :
  l1 ≠ [] → l2 ≠ [] →
  join sep (l1 ++ l2) = join sep l1 +:+ sep +:+ join sep l2.
Proof.
  intros H1 H2. induction l1 as [| s l1 IH]; [done |].
  destruct l1 as [| s' l1].
  - clear IH. cbn [app]. by rewrite join_cons.
  - rewrite <- app_comm_cons, join_cons by done.
    rewrite IH by done. rewrite (join_cons sep s (s' :: l1)) by done.
    by rewrite !string_app_assoc.
Qed.

Lemma problem_empty (individual : list Result.t) :
  problem individual = ""
  ↔ filter (fun r => state_str (Result.state r) ≠ "ok") individual = [].
Proof.
  unfold problem. split; [| by intros ->].
  intros Hempty.
  destruct (filter _ individual) as [| r rest] eqn:Hfilter; [done |].
  exfalso. revert Hempty. apply join_nonempty; [| done].
  apply Forall_forall. intros text Hin.
  apply list_elem_of_In, in_map_iff in Hin as (r' & <- & _).
  apply render_nonempty.
Qed.

Lemma non_ok_filter_nil (individual : list Result.t) :
  filter (fun r => state_str (Result.state r) ≠ "ok") individual = []
  ↔ Forall (fun r => Result.state r = Ok) individual.
Proof.
  induction individual as [| r rest IH].
  - split; [by constructor | done].
  - destruct (decide (Result.state r = Ok)) as [Hok | Hnot].
    + rewrite filter_cons_False by (rewrite state_str_ok; by intros []).
      rewrite IH. split; [by constructor |].
      by intros [_ Hrest]%Forall_cons.
    + rewrite filter_cons_True by (by rewrite state_str_ok).
      split; [done |]. by intros [Hr _]%Forall_cons.
Qed.

(** C8: [problem] keeps exactly the results whose state is not Ok, in
    their order, renders each as [<metricName> <severity>: <hint>], with
    the severity printed as warning, critical or unknown and a missing
    hint as None, and joins them with a comma and a space.  So an Ok
    result in front changes nothing; a result that is not Ok in front
    gives its text alone when all the others are Ok, and its text, a
    comma, a space and the problem text of the others when they are not.
    When every result is Ok, or there is none, the text is empty. *)
Theorem problem_lists_non_ok (individual : list Result.t) (r : Result.t) :
  let text :=
    Metric.name (Result.metric r) +:+ " "
    +:+ match Result.state r with
        | Ok => "ok"
        | Warn => "warning"
        | Critical => "critical"
        | Unknown => "unknown"
        end
    +:+ ": "
    +:+ match Result.hint r with
        | Some hint => hint
        | None => "None"
        end in
  problem [] = ""
  ∧ (Forall (fun r => Result.state r = Ok) individual →
     problem individual = "")
  ∧ (Result.state r = Ok → problem (r :: individual) = problem individual)
  ∧ (Result.state r ≠ Ok →
     Forall (fun r => Result.state r = Ok) individual →
     problem (r :: individual) = text)
  ∧ (Result.state r ≠ Ok →
     ¬ Forall (fun r => Result.state r = Ok) individual →
     problem (r :: individual) = text +:+ ", " +:+ problem individual).
Proof.
  intros text.
  assert (render r = text) as Hrender by reflexivity.
  split; [reflexivity |].
  split; [by intros ->%non_ok_filter_nil%problem_empty |].
  split; [| split].
  - intros Hok. unfold problem.
    by rewrite filter_cons_False by (rewrite state_str_ok; by intros []).
  - intros Hnot Hrest%non_ok_filter_nil. unfold problem.
    rewrite filter_cons_True by (by rewrite state_str_ok).
    by rewrite Hrest.
  - intros Hnot Hrest. unfold problem.
    rewrite filter_cons_True by (by rewrite state_str_ok).
    rewrite map_cons, join_cons, Hrender; [reflexivity |].
    intros Hnil%fmap_nil_inv. by apply Hrest, non_ok_filter_nil.
Qed.

(** X15: the problem text is empty exactly when every result is Ok; as
    soon as one result is not Ok the text is not empty. *)
Theorem problem_empty_iff (individual : list Result.t) :
  problem individual = ""
  ↔ Forall (fun r => Result.state r = Ok) individual.
Proof.
  rewrite problem_empty. split.
  - intros Hfilter. apply Forall_forall. intros r Hin.
    destruct (decide (Result.state r = Ok)) as [Hok | Hnot]; [done |].
    assert (r ∈ filter (fun r => state_str (Result.state r) ≠ "ok") individual)
      as Hr.
    { apply list_elem_of_filter. split; [by rewrite state_str_ok | done]. }
    rewrite Hfilter in Hr. by apply elem_of_nil in Hr.
  - intros Hall. induction Hall as [| r rest Hr _ IH]; [done |].
    rewrite filter_cons_False; [exact IH |].
    rewrite state_str_ok. by intros [].
Qed.

(** X16: the problem text of two sequences of results put together is
    made of their two problem texts: the other one when one of them is
    empty, and otherwise the first, a comma and a space, and the second. *)
Theorem problem_app (first second : list Result.t) :
  problem (first ++ second)
  = if decide (problem first = "") then problem second
    else if decide (problem second = "") then problem first
    else problem first +:+ ", " +:+ problem second.
Proof.
  destruct (decide (problem first = "")) as [H1 | H1];
    [| destruct (decide (problem second = "")) as [H2 | H2]].
  - apply problem_empty in H1. unfold problem. by rewrite filter_app, H1.
  - apply problem_empty in H2. unfold problem.
    by rewrite filter_app, H2, app_nil_r.
  - rewrite problem_empty in H1, H2. unfold problem.
    rewrite filter_app, map_app. apply join_app.
    + by destruct (filter _ first).
    + by destruct (filter _ second).
Qed.

End Model.

(** * The statements on sample data *)

(** ** The threshold-below context *)

(** C1, as stated, fails for a bound of 0: with the critical bound
    configured as 0 and a hashrate of 0, [value <= criticalBound] holds,
    yet the result is Ok without a hint, not Critical with [0<=0MH/s]. *)
Lemma BelowThresholdContext_zero_bound_counterexample :
  py_le (Metric.value stalled) 0 = inr true
  ∧ BelowThresholdContext_evaluate no_floats None (Some 0) stalled
    = inr {| Result.state := Ok; Result.hint := None; Result.metric := stalled |}
  ∧ BelowThresholdContext_evaluate no_floats None (Some 0) stalled
    ≠ inr {| Result.state := Critical; Result.hint := Some "0<=0MH/s";
             Result.metric := stalled |}.
Proof. split; [reflexivity | split; [reflexivity | discriminate]]. Qed.

(** A stalled rig under warning 10 and critical 5 is Critical, with the
    hint [0<=5MH/s]. *)
Lemma BelowThresholdContext_evaluate_tiers_witness :
  BelowThresholdContext_evaluate no_floats (Some 10) (Some 5) stalled
  = inr {| Result.state := Critical;
           Result.hint := Some "0<=5MH/s";
           Result.metric := stalled |}.
Proof.
  assert (Metric.uom stalled = Some "MH/s") as Huom by reflexivity.
  assert ("MH/s" ≠ "") as Hunit by discriminate.
  assert (5 ≠ 0) as Hbound by lia.
  exact (proj1 (BelowThresholdContext_evaluate_tiers no_floats (Some 10)
                  (Some 5) stalled "MH/s" Huom Hunit)
               5 eq_refl Hbound eq_refl).
Defined.

(** ** The probe *)

(** Against a miner that reports one GPU with only a memory temperature,
    the probe emits hashrate, uptime and [memory_temperature_0], and no
    alive metric. *)
Lemma probe_data_driven_witness :
  ∃ metrics,
    probe no_floats hot_memory_miner
      {| TeamRedMiner.host := "127.0.0.1"; TeamRedMiner.port := 4028;
         TeamRedMiner.timeout := 1 |} []
    = (inr metrics, ["summary"; "devs"])
    ∧ emitted "uptime" metrics
    ∧ emitted "memory_temperature_0" metrics
    ∧ ¬ emitted "alive_0" metrics.
Proof.
  set (self := {| TeamRedMiner.host := "127.0.0.1"; TeamRedMiner.port := 4028;
                  TeamRedMiner.timeout := 1 |}).
  assert (request no_floats hot_memory_miner (client_of self) "summary" []
          = (inr [sample_summary], ["summary"])) as Hsummary by reflexivity.
  assert (request no_floats hot_memory_miner (client_of self) "devs" ["summary"]
          = (inr [hot_memory], ["summary"; "devs"])) as Hdevs by reflexivity.
  assert (∀ uptime, sample_summary !! "Elapsed" = Some uptime →
                    is_number uptime = true) as Huptime.
  { intros uptime Hlookup. vm_compute in Hlookup. by injection Hlookup as <-. }
  destruct (probe_data_driven no_floats hot_memory_miner self sample_summary
              [] [hot_memory] [] ["summary"] ["summary"; "devs"]
              Hsummary Hdevs Huptime)
    as (metrics & Hprobe & _ & _ & Huptime' & Hdevices).
  exists metrics. split; [exact Hprobe |].
  destruct (Hdevices "0") as (Halive & _ & Hmemory).
  split; [| split].
  - apply Huptime'. by eexists.
  - apply Hmemory. exists hot_memory.
    split; [apply list_elem_of_singleton; reflexivity |].
    exists (JInt 0). split; [reflexivity | split; [reflexivity | by eexists]].
  - intros Hemitted. apply Halive in Hemitted as (device & Hin & id & _ & _ & Hstatus).
    apply list_elem_of_singleton in Hin as ->.
    vm_compute in Hstatus. by destruct Hstatus.
Defined.

(** ** The boolean context *)

(** The alive metric of a dead GPU, in the context [main] registers, is
    Critical with the hint [alive_0 is not True]. *)
Lemma BooleanContext_evaluate_mismatch_witness :
  BooleanContext_evaluate true false true
    (mkMetric "alive_0" (JBool false) None "alive")
  = {| Result.state := Critical;
       Result.hint := Some "alive_0 is not True";
       Result.metric := mkMetric "alive_0" (JBool false) None "alive" |}.
Proof.
  assert (false ≠ true) as Hmismatch by discriminate.
  exact (proj1 (proj2 (BooleanContext_evaluate_mismatch no_floats no_hint
                         true false true
                         (mkMetric "alive_0" (JBool false) None "alive")
                         false eq_refl))
               Hmismatch).
Defined.

(** ** The summary *)

(** A stalled rig under a warning bound of 10 and a dead GPU: both are
    listed, in their order, with their severities and hints. *)
Lemma problem_lists_non_ok_witness :
  problem
    [ {| Result.state := Warn; Result.hint := Some "0<=10MH/s";
         Result.metric := stalled |};
      {| Result.state := Ok; Result.hint := None; Result.metric := hashing |};
      {| Result.state := Critical; Result.hint := Some "alive_0 is not True";
         Result.metric := mkMetric "alive_0" (JBool false) None "alive" |} ]
  = "hashrate warning: 0<=10MH/s, alive_0 critical: alive_0 is not True".
Proof.
  assert (Warn ≠ Ok) as Hwarn by discriminate.
  assert (¬ Forall (fun r => Result.state r = Ok)
            [ {| Result.state := Ok; Result.hint := None;
                 Result.metric := hashing |};
              {| Result.state := Critical;
                 Result.hint := Some "alive_0 is not True";
                 Result.metric := mkMetric "alive_0" (JBool false) None
                                    "alive" |} ]) as Hrest.
  { intros Hall. apply Forall_cons in Hall as [_ Hall].
    apply Forall_cons in Hall as [Hcritical _]. discriminate Hcritical. }
  exact (proj2 (proj2 (proj2 (proj2
           (problem_lists_non_ok _
              {| Result.state := Warn; Result.hint := Some "0<=10MH/s";
                 Result.metric := stalled |}))))
           Hwarn Hrest).
Defined.

(** ** The protocol client *)

(** A response whose second status element has code E makes [request]
    raise an API error. *)
Lemma request_api_error_iff_witness :
  ∃ msg,
    fst (request no_floats refusing_miner
           {| TeamRedMinerApi.host := "127.0.0.1"; TeamRedMinerApi.port := 4028;
              TeamRedMinerApi.timeout := 1 |} "summary" [])
    = inl (ApiError msg).
Proof.
  assert (Forall well_formed_status [success; bad_command]) as Hwf.
  { repeat constructor; by eexists. }
  assert (Exists (fun s => status_fails s = true) [success; bad_command])
    as Hfails.
  { apply Exists_cons_tl, Exists_cons_hd. reflexivity. }
  exact (proj2 (proj1 (request_api_error_iff no_floats refusing_miner
                         {| TeamRedMinerApi.host := "127.0.0.1";
                            TeamRedMinerApi.port := 4028;
                            TeamRedMinerApi.timeout := 1 |}
                         "summary" []
                         {| resp_STATUS := Some [success; bad_command];
                            resp_id := Some (JInt 1);
                            resp_rest := [("SUMMARY", [sample_summary])] |}
                         [success; bad_command] eq_refl eq_refl Hwf))
               Hfails).
Defined.

(** ** The outermost boundary *)

(** A miner that answers "summary" with the status element of a bad
    command makes [main] report Unknown with the message of the API
    error, after that one request. *)
Lemma main_exception_boundary_witness :
  main no_floats no_hint refusing_miner parse_arguments_defaults
  = (Outcome {| overallSeverity := Unknown;
                problemText :=
                  "Failed to execute check: API error: bad command (code 1)";
                results := [];
                perfData := [] |},
     ["summary"]).
Proof.
  assert (Forall well_formed_status [success]) as Hwf.
  { repeat constructor; by eexists. }
  assert (Forall (fun s => status_fails s = false) [success]) as Hpass.
  { repeat constructor. }
  exact (proj1 (proj2 (proj2 (proj2
           (main_exception_boundary no_floats no_hint refusing_miner
              parse_arguments_defaults eq_refl))))
           {| resp_STATUS := Some [success; bad_command];
              resp_id := Some (JInt 1);
              resp_rest := [("SUMMARY", [sample_summary])] |}
           [success] [] eq_refl eq_refl Hwf Hpass).
Defined.

(** ** Memory temperature *)

(** C2 fails on the code: the memory-temperature metric is sent to the
    context named "temperature", and [main] never reads the
    memory-temperature options, whose help texts promise bounds for the
    memory temperature.  With the default options a memory temperature of
    80 is a Warning (it is judged against 70 and 90), where the bounds 90
    and 110 would give Ok; and the outcome of [main] is the same whatever
    the memory-temperature options are. *)
Theorem memory_temperature_uses_gpu_bounds :
  verdicts (fst (main no_floats no_hint hot_memory_miner parse_arguments_defaults))
  = [("hashrate", Ok); ("uptime", Ok); ("memory_temperature_0", Warn)]
  ∧ verdict (ScalarContext_evaluate no_hint
               (Some (Args.memory_temperature_warning parse_arguments_defaults))
               (Some (Args.memory_temperature_critical parse_arguments_defaults))
               (mkMetric "memory_temperature_0" (JInt 80) (Some "C") "temperature"))
    = Some Ok
  ∧ (∀ float_repr scalar_hint net args warning critical,
       main float_repr scalar_hint net
         (with_memory_temperature args warning critical)
       = main float_repr scalar_hint net args).
Proof.
  split; [reflexivity | split; [reflexivity |]].
  intros float_repr scalar_hint net args warning critical. reflexivity.
Qed.

(** * The further properties on sample data *)

(** A reply that passes the status check but has no [id] is refused with
    [KeyError('id')], payload or not. *)
Lemma request_envelope_order_witness :
  request no_floats
    (miner (Replies {| resp_STATUS := Some [success]; resp_id := None;
                       resp_rest := [("SUMMARY", [sample_summary])] |})
           (Fails (OSError "timed out")))
    (client_of local_miner) "summary" []
  = (inl (KeyError "id"), ["summary"]).
Proof.
  exact (request_envelope_order no_floats _ (client_of local_miner) "summary" []
           {| resp_STATUS := Some [success]; resp_id := None;
              resp_rest := [("SUMMARY", [sample_summary])] |}
           eq_refl eq_refl).
Defined.

(** The bad command is reported although the element after it has no
    message. *)
Lemma raise_for_status_first_failure_witness :
  raise_for_status no_floats
    {| resp_STATUS := Some [success; bad_command; no_message];
       resp_id := Some (JInt 1); resp_rest := [] |}
  = inl (ApiError "API error: bad command (code 1)").
Proof.
  assert (Forall well_formed_status [success]) as Hwf.
  { repeat constructor; by eexists. }
  assert (Forall (fun s => status_fails s = false) [success]) as Hpass.
  { repeat constructor. }
  exact (raise_for_status_first_failure no_floats
           {| resp_STATUS := Some [success; bad_command; no_message];
              resp_id := Some (JInt 1); resp_rest := [] |}
           [success] [no_message] bad_command (JStr "bad command") (JInt 1)
           eq_refl Hwf Hpass eq_refl eq_refl eq_refl).
Defined.

(** A success element without a message raises [KeyError('Msg')]. *)
Lemma raise_for_status_missing_key_witness :
  raise_for_status no_floats
    {| resp_STATUS := Some [success; no_message];
       resp_id := Some (JInt 1); resp_rest := [] |}
  = inl (KeyError "Msg").
Proof.
  assert (Forall well_formed_status [success]) as Hwf.
  { repeat constructor; by eexists. }
  assert (Forall (fun s => status_fails s = false) [success]) as Hpass.
  { repeat constructor. }
  exact (raise_for_status_missing_key no_floats
           {| resp_STATUS := Some [success; no_message];
              resp_id := Some (JInt 1); resp_rest := [] |}
           [success] [] no_message "Msg" eq_refl Hwf Hpass eq_refl).
Defined.

(** An uptime given as a string stops the probe after "summary". *)
Lemma probe_summary_failures_witness :
  probe no_floats text_uptime_miner local_miner []
  = (inl (TypeError "'>' not supported between instances of 'str' and 'int'"),
     ["summary"]).
Proof.
  exact (proj2 (proj2 (probe_summary_failures no_floats text_uptime_miner
                         local_miner []))
               text_uptime [] (JStr "12") eq_refl eq_refl eq_refl).
Defined.

(** One GPU, so distinct ids: the names of the probe's metrics differ. *)
Lemma probe_metric_names_unique_witness :
  ∃ metrics,
    probe no_floats hot_memory_miner local_miner []
    = (inr metrics, ["summary"; "devs"])
    ∧ NoDup (Metric.name <$> metrics).
Proof.
  assert (∀ uptime, sample_summary !! "Elapsed" = Some uptime →
                    is_number uptime = true) as Huptime.
  { intros uptime Hlookup. vm_compute in Hlookup. by injection Hlookup as <-. }
  assert (NoDup (gpu_ids no_floats [hot_memory])) as Hids.
  { apply NoDup_singleton. }
  exact (probe_metric_names_unique no_floats hot_memory_miner local_miner
           sample_summary [] [hot_memory] [] ["summary"] ["summary"; "devs"]
           eq_refl eq_refl Huptime Hids).
Defined.

(** The memory-temperature metric of the sample miner names the context
    "temperature", which [main] registers. *)
Lemma probe_contexts_registered_witness :
  "temperature"
  ∈ map Context_name (contexts (main_check parse_arguments_defaults)).
Proof.
  assert (mkMetric "memory_temperature_0" (JInt 80) (Some "C") "temperature"
          ∈ [ hashing;
              mkMetric "uptime" (JInt 1000) (Some "s") "uptime";
              mkMetric "memory_temperature_0" (JInt 80) (Some "C")
                "temperature" ]) as Hin.
  { apply elem_of_cons. right. apply elem_of_cons. right.
    apply elem_of_cons. by left. }
  exact (probe_contexts_registered no_floats hot_memory_miner local_miner
           [] ["summary"; "devs"] _ _ parse_arguments_defaults eq_refl Hin).
Defined.

(** A stalled rig is judged at least as severe as one hashing at 50. *)
Lemma BelowThresholdContext_evaluate_antitone_witness :
  ∃ s1 s2,
    verdict (BelowThresholdContext_evaluate no_floats (Some 10) (Some 5) stalled)
    = Some s1
    ∧ verdict (BelowThresholdContext_evaluate no_floats (Some 10) (Some 5)
                 hashing) = Some s2
    ∧ state_code s2 ≤ state_code s1.
Proof.
  assert (0 ≤ 50) as Hle by lia.
  exact (BelowThresholdContext_evaluate_antitone no_floats (Some 10) (Some 5)
           stalled hashing 0 50 eq_refl eq_refl Hle).
Defined.

(** With warning 5 under critical 10 a stalled rig is not a Warning. *)
Lemma BelowThresholdContext_warning_shadowed_witness :
  verdict (BelowThresholdContext_evaluate no_floats (Some 5) (Some 10) stalled)
  ≠ Some Warn.
Proof.
  assert (10 ≠ 0) as Hbound by lia.
  assert (5 ≤ 10) as Hle by lia.
  exact (BelowThresholdContext_warning_shadowed no_floats 5 10 stalled 0
           eq_refl Hbound Hle).
Defined.

(** A hashrate given as a string raises under a critical bound of 5. *)
Lemma BelowThresholdContext_evaluate_non_number_witness :
  BelowThresholdContext_evaluate no_floats None (Some 5)
    (mkMetric "hashrate" (JStr "fast") (Some "MH/s") "hashrate")
  = inl (TypeError "'<=' not supported between instances of 'str' and 'int'").
Proof.
  exact (BelowThresholdContext_evaluate_non_number no_floats None (Some 5)
           (mkMetric "hashrate" (JStr "fast") (Some "MH/s") "hashrate")
           eq_refl).
Defined.

(** Without a unit the hint of a stalled rig reads [0<=5None]. *)
Lemma BelowThresholdContext_hint_without_unit_witness :
  ∃ bound,
    (Critical = Critical ∧ Some 5 = Some bound
     ∨ Critical = Warn ∧ Some 10 = Some bound)
    ∧ Some "0<=5None" = Some ("0" +:+ "<=" +:+ int_str bound +:+ "None").
Proof.
  assert (Critical ≠ Ok) as Hstate by discriminate.
  exact (BelowThresholdContext_hint_without_unit no_floats (Some 10) (Some 5)
           (mkMetric "hashrate" (JInt 0) None "hashrate")
           {| Result.state := Critical; Result.hint := Some "0<=5None";
              Result.metric := mkMetric "hashrate" (JInt 0) None "hashrate" |}
           (or_introl eq_refl) eq_refl Hstate).
Defined.

(** The Critical result of a stalled rig comes from the critical bound 5. *)
Lemma BelowThresholdContext_evaluate_result_witness :
  ∃ c, Some 5 = Some c ∧ c ≠ 0 ∧ py_le (Metric.value stalled) c = inr true.
Proof.
  exact (proj1 (proj2 (proj2 (proj2
           (BelowThresholdContext_evaluate_result no_floats (Some 10) (Some 5)
              stalled
              {| Result.state := Critical; Result.hint := Some "0<=5MH/s";
                 Result.metric := stalled |}
              eq_refl))))
           eq_refl).
Defined.

(** The integer 1 is not [True]: under the context of [main] it is a
    Critical mismatch. *)
Lemma BooleanContext_evaluate_not_bool_witness :
  BooleanContext_evaluate true false true
    (mkMetric "alive_0" (JInt 1) None "alive")
  = {| Result.state := Critical;
       Result.hint := Some "alive_0 is not True";
       Result.metric := mkMetric "alive_0" (JInt 1) None "alive" |}.
Proof.
  assert (∀ b, JInt 1 ≠ JBool b) as Hvalue by discriminate.
  exact (BooleanContext_evaluate_not_bool true false true
           (mkMetric "alive_0" (JInt 1) None "alive") Hvalue).
Defined.
